(** * Serialized matrix factorizations: a model of [matrix_io.py]

    The development follows the Python module function by function:
    path construction ([_join_path], [get_matrix_path], [get_momentum_path],
    [infer_momentum_from_path]), the loader ([load_w_h_and_maybe_lr],
    [get_prefix_sum_w_h]), the sensitivity scaler, the reconstruction check
    and the write pipeline ([verify_and_write]).

    Python [float] and [tf.float64] values are IEEE 754 binary64 numbers;
    they are modelled with the Standard Library's [spec_float] at precision
    53 and maximal exponent 1024.  The matrix code is written over a small
    interface that lists the operations it applies to tensor entries;
    binary64 is its instance. *)

From Stdlib Require Import ZArith Lia Bool List String Ascii.
From Stdlib Require Import DecimalString DecimalZ.
From Stdlib Require Import SpecFloat.
From stdpp Require Import base option list gmap strings.

Local Open Scope Z_scope.

(** ** Exceptions *)

(** One constructor per place where the module (or a library call it makes)
    raises; the names are those of the specification's error taxonomy. *)
Inductive error : Set :=
  | InvalidArgument        (* ValueError raised by get_momentum_path *)
  | UnsupportedMechanism   (* NotImplementedError in get_prefix_sum_w_h *)
  | NotFound               (* ValueError in load_w_h_and_maybe_lr, missing blob *)
  | ParseFailure           (* tf.io.parse_tensor on a blob of another dtype *)
  | UnexpectedLearningRates (* assert lr_vector is None *)
  | TypeMismatch           (* assert w_matrix.dtype == np.float64, same for H *)
  | IncompatibleShapes     (* w_matrix @ h_matrix with differing inner sizes *)
  | ReconstructionMismatch (* np.testing.assert_allclose *)
  | SizeMismatch           (* assert len(lr_sched) == h_matrix.shape[1] *)
  | EmptyReduction.        (* np.max of an array without elements *)

Inductive py_exception : Set :=
  | ValueError | AssertionError | NotImplementedError | OpError.

(** The Python exception class behind each error. *)
Definition exception_class (e : error) : py_exception :=
  match e with
  | InvalidArgument | NotFound | EmptyReduction => ValueError
  | UnsupportedMechanism => NotImplementedError
  | UnexpectedLearningRates | TypeMismatch
  | ReconstructionMismatch | SizeMismatch => AssertionError
  | ParseFailure | IncompatibleShapes => OpError
  end.

Inductive result (A : Type) : Type :=
  | Ok (a : A)
  | Err (e : error).
Arguments Ok {A} a.
Arguments Err {A} e.

Definition rbind {A B} (r : result A) (k : A -> result B) : result B :=
  match r with
  | Ok a => k a
  | Err e => Err e
  end.

(** ** IEEE 754 binary64 *)

Module Float64.

Definition prec : Z := 53.
Definition emax : Z := 1024.

Definition t : Set := spec_float.

Definition add : t -> t -> t := SFadd prec emax.
Definition sub : t -> t -> t := SFsub prec emax.
Definition mul : t -> t -> t := SFmul prec emax.
Definition div : t -> t -> t := SFdiv prec emax.
Definition sqrt : t -> t := SFsqrt prec emax.
Definition abs : t -> t := SFabs.
Definition eqb : t -> t -> bool := SFeqb.
Definition leb : t -> t -> bool := SFleb.

Definition is_nan (x : t) : bool :=
  match x with S754_nan => true | _ => false end.

Definition is_inf (x : t) : bool :=
  match x with S754_infinity _ => true | _ => false end.

(** The binary64 number nearest to the integer [z]. *)
Definition of_Z (z : Z) : t := binary_normalize prec emax z 0 false.

(** The binary64 number nearest to [p / q], for [q > 0]: the value of a
    decimal literal such as [1e-6] (p = 1, q = 10^6) or of the text
    [1.005] (p = 1005, q = 1000).  [SFdiv] rounds the exact quotient of
    the two integer mantissas once. *)
Definition of_ratio (p : Z) (q : positive) : t :=
  match p with
  | Z0 => S754_zero false
  | Zpos m => SFdiv prec emax (S754_finite false m 0) (S754_finite false q 0)
  | Zneg m => SFdiv prec emax (S754_finite true m 0) (S754_finite false q 0)
  end.

(** [max] as NumPy computes it: a NaN operand wins. *)
Definition maximum (x y : t) : t :=
  if is_nan x then x
  else if is_nan y then y
  else if leb x y then y else x.

(** Rounding of [m * 2^e] (m >= 0) to the nearest integer, ties to even. *)
Definition round_half_even (m e : Z) : Z :=
  match e with
  | Zneg p =>
      let d := Z.pow_pos 2 p in
      let q := m / d in
      let r := m mod d in
      match 2 * r ?= d with
      | Lt => q
      | Gt => q + 1
      | Eq => if Z.even q then q else q + 1
      end
  | _ => m * 2 ^ e
  end.

(** Python's [round(x, 2)]: the exact value of [x] is rounded to two
    decimals, ties to even, and the decimal [k / 100] obtained is read
    back as the nearest binary64 number.  Zeros, infinities and NaN are
    returned unchanged; a result that rounds to zero keeps the sign. *)
Definition round2 (x : t) : t :=
  match x with
  | S754_finite s m e =>
      match round_half_even (100 * Zpos m) e with
      | Zpos k => SFdiv prec emax (S754_finite s k 0) (S754_finite false 100 0)
      | _ => S754_zero s
      end
  | _ => x
  end.

End Float64.

(** ** Strings and paths *)

Module Paths.

Local Open Scope string_scope.

Definition _FACTORIZATION_ROOT : string := "/tmp/matrix_factorizations".

Definition W_MATRIX_STRING : string := "w_matrix_tensor_pb".
Definition H_MATRIX_STRING : string := "h_matrix_tensor_pb".
Definition LR_VECTOR_STRING : string := "lr_vector_tensor_pb".

Definition PREFIX_ONLINE_HONAKER : string := "prefix_online_honaker".
Definition PREFIX_FULL_HONAKER : string := "prefix_full_honaker".
Definition PREFIX_OPT : string := "prefix_opt".

(** ['/'.join(args)] *)
Definition _join_path (args : list string) : string :=
  String.concat "/" args.

(** [f'{n:d}']: the decimal digits of a Python [int], with a minus sign
    for a negative one. *)
Definition format_d (n : Z) : string :=
  NilZero.string_of_int (Z.to_int n).

(** [root] is the value of the flag [matrix_root_path]. *)
Definition get_matrix_path (root : string) (n : Z) (mechanism_name : string)
  : string :=
  let size_str := "size=" ++ format_d n in
  _join_path [root; mechanism_name; size_str].

(** [f'{x:02.0f}']: no decimals (the exact value is rounded to an integer,
    ties to even), a minus sign when the sign bit is set, zeros after the
    sign up to a total width of two characters. *)
Definition format_02_0f (x : Float64.t) : string :=
  match x with
  | S754_nan => "nan"
  | S754_infinity false => "inf"
  | S754_infinity true => "-inf"
  | S754_zero false => "00"
  | S754_zero true => "-0"
  | S754_finite s m e =>
      let digits := format_d (Float64.round_half_even (Zpos m) e) in
      if s then "-" ++ digits
      else if (String.length digits <? 2)%nat then "0" ++ digits
      else digits
  end.

(** Raises [ValueError] twice; the second test is Python's [!=]. *)
Definition get_momentum_path (root : string) (n : Z) (momentum : Float64.t)
  : result string :=
  if negb (Float64.leb (Float64.of_Z 0) momentum
           && Float64.leb momentum (Float64.of_Z 1))
  then Err InvalidArgument
  else if negb (Float64.eqb (Float64.round2 momentum) momentum)
  then Err InvalidArgument
  else Ok (get_matrix_path root n
             ("momentum_0p"
              ++ format_02_0f (Float64.mul (Float64.of_Z 100) momentum))).

(** *** The regular expression [momentum_0p(\d\d)] *)

(** [\d] on the ASCII part of the alphabet. *)
Definition is_digit (c : ascii) : bool :=
  let k := nat_of_ascii c in ((48 <=? k) && (k <=? 57))%nat.

Definition digit_value (c : ascii) : Z := Z.of_nat (nat_of_ascii c) - 48.

(** [strip_prefix p s] is the rest of [s] after the prefix [p], if [s]
    starts with [p]. *)
Fixpoint strip_prefix (p s : string) : option string :=
  match p, s with
  | EmptyString, _ => Some s
  | String a p', String b s' =>
      if Ascii.eqb a b then strip_prefix p' s' else None
  | String _ _, EmptyString => None
  end.

(** A match of the pattern at the very start of [s]: the two digits. *)
Definition match_here (s : string) : option (ascii * ascii) :=
  match strip_prefix "momentum_0p" s with
  | Some (String d1 (String d2 _)) =>
      if is_digit d1 && is_digit d2 then Some (d1, d2) else None
  | _ => None
  end.

(** [re.search]: the leftmost position where the pattern matches. *)
Fixpoint re_search (s : string) : option (ascii * ascii) :=
  match match_here s with
  | Some g => Some g
  | None =>
      match s with
      | EmptyString => None
      | String _ s' => re_search s'
      end
  end.

(** [float(match.group(1)) / 100], or [None]. *)
Definition infer_momentum_from_path (path : string) : option Float64.t :=
  match re_search path with
  | Some (d1, d2) =>
      Some (Float64.div (Float64.of_Z (10 * digit_value d1 + digit_value d2))
                        (Float64.of_Z 100))
  | None => None
  end.

End Paths.

(** ** The arithmetic of tensor entries *)

(** The operations the module applies to tensor entries.  [f_ratio p q] is
    the constant written [p / q] in decimal ([1e-6], [1e-8]). *)
Class Arith (num : Type) : Type := {
  f_zero : num;
  f_add : num -> num -> num;
  f_sub : num -> num -> num;
  f_mul : num -> num -> num;
  f_div : num -> num -> num;
  f_sqrt : num -> num;
  f_abs : num -> num;
  f_leb : num -> num -> bool;
  f_eqb : num -> num -> bool;
  f_is_nan : num -> bool;
  f_is_inf : num -> bool;
  f_max : num -> num -> num;
  f_ratio : Z -> positive -> num
}.

(** What the program runs on. *)
#[export] Instance binary64 : Arith Float64.t := {
  f_zero := S754_zero false;
  f_add := Float64.add;
  f_sub := Float64.sub;
  f_mul := Float64.mul;
  f_div := Float64.div;
  f_sqrt := Float64.sqrt;
  f_abs := Float64.abs;
  f_leb := Float64.leb;
  f_eqb := Float64.eqb;
  f_is_nan := Float64.is_nan;
  f_is_inf := Float64.is_inf;
  f_max := Float64.maximum;
  f_ratio := Float64.of_ratio
}.

(** ** Tensors *)

Inductive dtype : Set := float16 | float32 | float64 | int32 | int64.

#[export] Instance dtype_eq_dec : EqDecision dtype.
Proof. solve_decision. Defined.

(** A rank-2 tensor of shape [(length m_rows, m_ncols)], row by row. *)
Record matrix (num : Type) : Type := Matrix {
  m_dtype : dtype;
  m_ncols : nat;
  m_rows : list (list num)
}.
Arguments Matrix {num} _ _ _.
Arguments m_dtype {num} _.
Arguments m_ncols {num} _.
Arguments m_rows {num} _.

(** A rank-1 tensor. *)
Record vector (num : Type) : Type := Vector {
  v_dtype : dtype;
  v_data : list num
}.
Arguments Vector {num} _ _.
Arguments v_dtype {num} _.
Arguments v_data {num} _.

(** Every row has [m_ncols] entries. *)
Definition rectangular {num} (m : matrix num) : Prop :=
  Forall (fun r => length r = m_ncols m) (m_rows m).

Section Numerics.

Context {num : Type} {A : Arith num}.

Local Open Scope nat_scope.

Definition map_matrix (f : num -> num) (m : matrix num) : matrix num :=
  Matrix (m_dtype m) (m_ncols m) (map (map f) (m_rows m)).

(** Column [j], top to bottom. *)
Definition column (j : nat) (m : matrix num) : list num :=
  map (fun r => nth j r f_zero) (m_rows m).

(** [np.add.reduce] along one axis: the entries are added in order; the
    sum of no entries is the identity. *)
Definition add_reduce (l : list num) : num :=
  match l with
  | [] => f_zero
  | x :: xs => fold_left f_add xs x
  end.

(** [np.linalg.norm(h, axis=0)]: [sqrt(add.reduce(x * x, axis=0))]. *)
Definition column_norm (j : nat) (m : matrix num) : num :=
  f_sqrt (add_reduce (map (fun x => f_mul x x) (column j m))).

Definition column_norms (m : matrix num) : list num :=
  map (fun j => column_norm j m) (seq 0 (m_ncols m)).

(** [np.max]: raises [ValueError] on an array without elements. *)
Definition np_max (l : list num) : result num :=
  match l with
  | [] => Err EmptyReduction
  | x :: xs => Ok (fold_left f_max xs x)
  end.

Definition max_col_norm (h_matrix : matrix num) : result num :=
  np_max (column_norms h_matrix).

Definition scale_w_h_by_single_participation_sensitivity
    (w_matrix h_matrix : matrix num) : result (matrix num * matrix num) :=
  rbind (max_col_norm h_matrix) (fun max_col_norm =>
    Ok (map_matrix (fun w => f_mul w max_col_norm) w_matrix,
        map_matrix (fun h => f_div h max_col_norm) h_matrix)).

(** *** Matrix product *)

(** One entry of a product: the products are accumulated from zero, in
    the order of the inner index. *)
Definition dot (a b : list num) : num :=
  fold_left (fun acc xy => f_add acc (f_mul (fst xy) (snd xy)))
            (combine a b) f_zero.

(** [w @ h]; TensorFlow refuses operands whose inner sizes differ. *)
Definition matmul (w h : matrix num) : result (matrix num) :=
  if length (m_rows h) =? m_ncols w then
    Ok (Matrix (m_dtype w) (m_ncols h)
          (map (fun row => map (fun j => dot row (column j h))
                               (seq 0 (m_ncols h)))
               (m_rows w)))
  else Err IncompatibleShapes.

(** *** [np.testing.assert_allclose] *)

Definition rtol : num := f_ratio 1 1000000.
Definition atol : num := f_ratio 1 100000000.

(** The test applied to one entry [a] of [actual] and the entry [d] of
    [desired] at the same place: NaN only against NaN, an infinity only
    against the same infinity, and otherwise
    [abs(a - d) <= atol + rtol * abs(d)]. *)
Definition isclose (a d : num) : bool :=
  if f_is_nan a || f_is_nan d then f_is_nan a && f_is_nan d
  else if f_is_inf a || f_is_inf d then f_eqb a d
  else f_leb (f_abs (f_sub a d)) (f_add atol (f_mul rtol (f_abs d))).

Fixpoint forallb2 {X Y} (p : X -> Y -> bool) (xs : list X) (ys : list Y)
  : bool :=
  match xs, ys with
  | [], [] => true
  | x :: xs', y :: ys' => p x y && forallb2 p xs' ys'
  | _, _ => false
  end.

Definition same_shape (a b : matrix num) : bool :=
  (length (m_rows a) =? length (m_rows b)) && (m_ncols a =? m_ncols b).

(** Shapes are compared first, then every pair of entries. *)
Definition allclose (actual desired : matrix num) : bool :=
  same_shape actual desired
  && forallb2 (forallb2 isclose) (m_rows actual) (m_rows desired).

Definition verify_reconstruction (w_matrix h_matrix s_matrix : matrix num)
  : result unit :=
  if negb (bool_decide (m_dtype w_matrix = float64)) then Err TypeMismatch
  else if negb (bool_decide (m_dtype h_matrix = float64)) then Err TypeMismatch
  else
    rbind (matmul w_matrix h_matrix) (fun s_reconstructed =>
      if allclose s_matrix s_reconstructed then Ok tt
      else Err ReconstructionMismatch).

End Numerics.

(** ** The blob store *)

(** A serialized tensor carries its dtype, shape and values
    ([tf.io.serialize_tensor] writes a [TensorProto]). *)
Inductive blob (num : Type) : Type :=
  | MatrixBlob (m : matrix num)
  | VectorBlob (v : vector num).
Arguments MatrixBlob {num} m.
Arguments VectorBlob {num} v.

(** Directories, blobs by path, and the paths written so far, oldest
    first. *)
Record store (num : Type) : Type := Store {
  dirs : gset string;
  blobs : gmap string (blob num);
  written : list string
}.
Arguments Store {num} _ _ _.
Arguments dirs {num} _.
Arguments blobs {num} _.
Arguments written {num} _.

(** Computations that may raise and may write: the store that comes back
    holds every write made before an exception. *)
Definition io (num A : Type) : Type := store num -> result A * store num.

Definition io_ret {num A} (a : A) : io num A := fun st => (Ok a, st).

Definition io_raise {num A} (e : error) : io num A := fun st => (Err e, st).

Definition io_bind {num A B} (c : io num A) (k : A -> io num B) : io num B :=
  fun st =>
    match c st with
    | (Ok a, st') => k a st'
    | (Err e, st') => (Err e, st')
    end.

Definition io_lift {num A} (r : result A) : io num A := fun st => (r, st).

Declare Scope io_scope.
Delimit Scope io_scope with io.
Notation "c1 ;; c2" := (io_bind c1 (fun _ => c2))
  (at level 100, c2 at level 200, right associativity) : io_scope.

Module Storage.

Import Paths.

(** The directories above [path]: every prefix that ends before a ['/']. *)
Fixpoint parents_from (prefix path : string) : list string :=
  match path with
  | EmptyString => []
  | String c rest =>
      (if Ascii.eqb c "/" then [prefix] else [])
      ++ parents_from (prefix +:+ String c EmptyString) rest
  end.

Definition parents (path : string) : list string :=
  parents_from EmptyString path.

Section Blobs.

Context {num : Type}.

(** [tf.io.gfile.exists] *)
Definition exists_ (path : string) (st : store num) : bool :=
  bool_decide (path ∈ dirs st) || bool_decide (is_Some (blobs st !! path)).

(** [tf.io.gfile.isdir] *)
Definition isdir (path : string) (st : store num) : bool :=
  bool_decide (path ∈ dirs st).

(** [tf.io.read_file] *)
Definition read_file (path : string) (st : store num) : result (blob num) :=
  match blobs st !! path with
  | Some b => Ok b
  | None => Err NotFound
  end.

(** [tf.io.write_file]: the file is created or replaced, with the
    directories above it.  The store is the abstract blob store of the
    specification, in which a put always returns: the failures of a
    concrete file system (a path below a regular file, missing
    permissions, a full disk) are not modelled, and what is proved of the
    write pipeline is about runs in which the puts return. *)
Definition write_file (path : string) (contents : blob num) : io num unit :=
  fun st =>
    (Ok tt,
     Store (list_to_set (parents path) ∪ dirs st)
           (<[path := contents]> (blobs st))
           (written st ++ [path])).

(** [tf.io.parse_tensor(_, tf.float64)] where a matrix is expected.
    [parse_tensor] itself tests the dtype only; blobs are typed by rank
    here, and a blob of the other rank is refused at the parse instead of
    being handed on as a tensor of an unexpected rank. *)
Definition parse_matrix (b : blob num) : result (matrix num) :=
  match b with
  | MatrixBlob m =>
      if bool_decide (m_dtype m = float64) then Ok m else Err ParseFailure
  | VectorBlob _ => Err ParseFailure
  end.

(** [tf.io.parse_tensor(_, tf.float64)] where a vector is expected; the
    rank is treated as in [parse_matrix]. *)
Definition parse_vector (b : blob num) : result (vector num) :=
  match b with
  | VectorBlob v =>
      if bool_decide (v_dtype v = float64) then Ok v else Err ParseFailure
  | MatrixBlob _ => Err ParseFailure
  end.

Definition load_w_h_and_maybe_lr (path : string) (st : store num)
  : result (matrix num * matrix num * option (vector num)) :=
  if negb (exists_ path st && isdir path st) then Err NotFound
  else
    rbind (rbind (read_file (_join_path [path; W_MATRIX_STRING]) st)
                 parse_matrix) (fun w_matrix =>
    rbind (rbind (read_file (_join_path [path; H_MATRIX_STRING]) st)
                 parse_matrix) (fun h_matrix =>
    let lr_file := _join_path [path; LR_VECTOR_STRING] in
    if exists_ lr_file st then
      rbind (rbind (read_file (_join_path [path; LR_VECTOR_STRING]) st)
                   parse_vector) (fun lr_tensor =>
      Ok (w_matrix, h_matrix, Some lr_tensor))
    else Ok (w_matrix, h_matrix, None))).

(** The [if]/[elif] chain of [get_prefix_sum_w_h] that picks the path;
    [in] on a list of strings is equality with one of them. *)
Definition prefix_sum_path (root : string) (n : Z)
    (aggregator_method : string) : result string :=
  if String.eqb aggregator_method "opt_prefix_sum_matrix"
     || String.eqb aggregator_method PREFIX_OPT
  then Ok (get_matrix_path root n PREFIX_OPT)
  else if String.eqb aggregator_method "streaming_honaker_matrix"
          || String.eqb aggregator_method PREFIX_ONLINE_HONAKER
  then Ok (get_matrix_path root n PREFIX_ONLINE_HONAKER)
  else if String.eqb aggregator_method "full_honaker_matrix"
          || String.eqb aggregator_method PREFIX_FULL_HONAKER
  then Ok (get_matrix_path root n PREFIX_FULL_HONAKER)
  else Err UnsupportedMechanism.

Definition get_prefix_sum_w_h (root : string) (n : Z)
    (aggregator_method : string) (st : store num)
  : result (matrix num * matrix num) :=
  rbind (prefix_sum_path root n aggregator_method) (fun path =>
  rbind (load_w_h_and_maybe_lr path st) (fun loaded =>
    match loaded with
    | (w_matrix, h_matrix, None) => Ok (w_matrix, h_matrix)
    | (_, _, Some _) => Err UnexpectedLearningRates
    end)).

Context {A : Arith num}.

Definition verify_and_write (w_matrix h_matrix s_matrix : matrix num)
    (output_dir : string) (lr_sched : option (vector num)) : io num unit :=
  (io_lift (verify_reconstruction w_matrix h_matrix s_matrix) ;;
   write_file (_join_path [output_dir; W_MATRIX_STRING])
              (MatrixBlob w_matrix) ;;
   write_file (_join_path [output_dir; H_MATRIX_STRING])
              (MatrixBlob h_matrix) ;;
   match lr_sched with
   | Some lr =>
       (if (length (v_data lr) =? m_ncols h_matrix)%nat
        then io_ret tt else io_raise SizeMismatch) ;;
       write_file (_join_path [output_dir; LR_VECTOR_STRING])
                  (VectorBlob lr)
   | None => io_ret tt
   end)%io.

End Blobs.

End Storage.

(** ** Vocabulary of the properties *)

Module Vocabulary.

Import Paths Storage.

(** Whether ['/'] occurs in a string. *)
Fixpoint has_slash (s : string) : bool :=
  match s with
  | EmptyString => false
  | String c s' => Ascii.eqb c "/" || has_slash s'
  end.

(** The momentum written [k/100] in decimal, as a binary64 number. *)
Definition hundredths (k : Z) : Float64.t := Float64.of_ratio k 100.

(** Same sign, mantissa and exponent. *)
Definition same_float (x y : Float64.t) : bool :=
  match x, y with
  | S754_zero s, S754_zero s' => Bool.eqb s s'
  | S754_infinity s, S754_infinity s' => Bool.eqb s s'
  | S754_nan, S754_nan => true
  | S754_finite s m e, S754_finite s' m' e' =>
      Bool.eqb s s' && Pos.eqb m m' && Z.eqb e e'
  | _, _ => false
  end.

(** The path is built and the momentum read back from it. *)
Definition reads_back (n : Z) (momentum : Float64.t) : bool :=
  match get_momentum_path _FACTORIZATION_ROOT n momentum with
  | Ok path =>
      match infer_momentum_from_path path with
      | Some m => same_float m momentum
      | None => false
      end
  | Err _ => false
  end.

(** [0.0] *)
Definition pzero : Float64.t := S754_zero false.



Section Generic.

Context {num : Type} {A : Arith num}.

(** What [np.testing.assert_allclose] asks of an entry [a] of the
    target and the entry [d] of the product at the same place. *)
Definition within_tolerance (a d : num) : Prop :=
  (f_is_nan a = true /\ f_is_nan d = true)
  \/ (f_is_nan a = false /\ f_is_nan d = false
      /\ (f_is_inf a = true \/ f_is_inf d = true)
      /\ f_eqb a d = true)
  \/ (f_is_nan a = false /\ f_is_nan d = false
      /\ f_is_inf a = false /\ f_is_inf d = false
      /\ f_leb (f_abs (f_sub a d)) (f_add atol (f_mul rtol (f_abs d)))
         = true).

(** The product [w @ h] when the inner sizes agree. *)
Definition product (w h : matrix num) : matrix num :=
  Matrix (m_dtype w) (m_ncols h)
    (map (fun row => map (fun j => dot row (column j h))
                         (seq 0 (m_ncols h)))
         (m_rows w)).

(** The store after the two mandatory writes. *)
Definition after_w_and_h (w_matrix h_matrix : matrix num)
    (output_dir : string) (st : store num) : store num :=
  snd (write_file (_join_path [output_dir; H_MATRIX_STRING])
         (MatrixBlob h_matrix)
         (snd (write_file (_join_path [output_dir; W_MATRIX_STRING])
                 (MatrixBlob w_matrix) st))).

End Generic.

(** The test as the specification words it, against the target entry. *)
Definition within_tolerance_of_target (r s : Float64.t) : Prop :=
  Float64.leb (Float64.abs (Float64.sub r s))
              (Float64.add atol (Float64.mul rtol (Float64.abs s))) = true.

End Vocabulary.

(** ** Sample factorizations *)

Module Samples.

Import Paths Storage Vocabulary.

(** A product of zero and a target entry of 1.0000005e-8. *)
Definition W0 : matrix Float64.t := Matrix float64 1 [[S754_zero false]].
Definition H0 : matrix Float64.t := Matrix float64 1 [[S754_zero false]].
Definition S0 : matrix Float64.t :=
  Matrix float64 1 [[Float64.of_ratio 10000005 1000000000000000]].

(** [W = [[1, 2]]] and an all-zero [H] with one column. *)
Definition W1 : matrix Float64.t :=
  Matrix float64 2 [[Float64.of_Z 1; Float64.of_Z 2]].
Definition H1 : matrix Float64.t := Matrix float64 1 [[pzero]; [pzero]].

(** [W = [[1, 0]]] and the column [H = [[6], [9]]]. *)
Definition W2 : matrix Float64.t :=
  Matrix float64 2 [[Float64.of_Z 1; pzero]].
Definition H2 : matrix Float64.t :=
  Matrix float64 1 [[Float64.of_Z 6]; [Float64.of_Z 9]].

(** 1.0, 6.0 and their neighbours below. *)
Definition one : Float64.t := Float64.of_Z 1.
Definition below_one : Float64.t := S754_finite false 9007199254740991 (-53).
Definition six : Float64.t := Float64.of_Z 6.

(** 1e200, whose square is beyond the range of binary64, above 1.0. *)
Definition huge : Float64.t := Float64.of_ratio (10 ^ 200) 1.
Definition H_huge : matrix Float64.t :=
  Matrix float64 1 [[huge]; [Float64.of_Z 1]].

(** 1e-200, whose square is below the range of binary64. *)
Definition tiny : Float64.t := Float64.of_ratio 1 (10 ^ 200).
Definition H_tiny : matrix Float64.t := Matrix float64 1 [[tiny]].

(** Nothing stored, nothing written. *)
Definition empty_store : store Float64.t := Store ∅ ∅ [].

(** [W = [[1]]], [H = [[2, 3]]], [S = W @ H], and [S] with one entry off
    by 1.0. *)
Definition Wr : matrix Float64.t := Matrix float64 1 [[Float64.of_Z 1]].
Definition Hr : matrix Float64.t :=
  Matrix float64 2 [[Float64.of_Z 2; Float64.of_Z 3]].
Definition Sr : matrix Float64.t :=
  Matrix float64 2 [[Float64.of_Z 2; Float64.of_Z 3]].
Definition S_perturbed : matrix Float64.t :=
  Matrix float64 2 [[Float64.of_Z 2; Float64.of_Z 4]].

(** Learning rates for two and for three steps. *)
Definition lr_two : vector Float64.t :=
  Vector float64 [Float64.of_Z 1; Float64.of_Z 1].
Definition lr_three : vector Float64.t :=
  Vector float64 [Float64.of_Z 1; Float64.of_Z 1; Float64.of_Z 1].

(** The directory of [prefix_opt] for four steps. *)
Definition out_dir : string :=
  get_matrix_path _FACTORIZATION_ROOT 4 PREFIX_OPT.

(** The store after a complete write with learning rates. *)
Definition store_with_lr : store Float64.t :=
  snd (verify_and_write Wr Hr Sr out_dir (Some lr_two) empty_store).

End Samples.

(** ** Further vocabulary *)

Module MoreVocabulary.

Import Paths Storage Vocabulary.

(** The six names [get_prefix_sum_w_h] accepts. *)
Definition recognized (aggregator_method : string) : Prop :=
  In aggregator_method
     ["opt_prefix_sum_matrix"; PREFIX_OPT;
      "streaming_honaker_matrix"; PREFIX_ONLINE_HONAKER;
      "full_honaker_matrix"; PREFIX_FULL_HONAKER]%string.

(** The three blob paths of an artifact directory. *)
Definition artifact_paths (output_dir : string) : list string :=
  [_join_path [output_dir; W_MATRIX_STRING];
   _join_path [output_dir; H_MATRIX_STRING];
   _join_path [output_dir; LR_VECTOR_STRING]].

(** Whether the character [c] occurs in [s]. *)
Fixpoint occurs (c : ascii) (s : string) : bool :=
  match s with
  | EmptyString => false
  | String a s' => Ascii.eqb a c || occurs c s'
  end.

(** A binary64 number proper: the mantissa has at most 53 bits and is
    normalized for its exponent. *)
Definition valid (x : Float64.t) : Prop :=
  valid_binary Float64.prec Float64.emax x = true.

(** The two tests of [get_momentum_path] both pass. *)
Definition accepted (momentum : Float64.t) : bool :=
  Float64.leb (Float64.of_Z 0) momentum
  && Float64.leb momentum (Float64.of_Z 1)
  && Float64.eqb (Float64.round2 momentum) momentum.

(** The mechanism name [f'momentum_0p{100*momentum:02.0f}']. *)
Definition momentum_name (momentum : Float64.t) : string :=
  ("momentum_0p"
   ++ format_02_0f (Float64.mul (Float64.of_Z 100) momentum))%string.

(** [-0.0] and the hundredths from 0.00 to 1.00. *)
Definition accepted_values : list Float64.t :=
  S754_zero true :: map (fun k => hundredths (Z.of_nat k)) (seq 0 101).

(** A result that is not negative: [0.0], a positive number or the
    positive infinity. *)
Definition nonnegative (x : Float64.t) : Prop :=
  match x with
  | S754_zero false | S754_finite false _ _ | S754_infinity false => True
  | _ => False
  end.

End MoreVocabulary.

(** ** Further samples *)

Module MoreSamples.

Import Paths Storage Vocabulary Samples MoreVocabulary.

(** Two learning rates stored as float32. *)
Definition lr_float32 : vector Float64.t :=
  Vector float32 [Float64.of_Z 1; Float64.of_Z 1].

(** A column with a NaN in its second row. *)
Definition H_nan : matrix Float64.t :=
  Matrix float64 1 [[Float64.of_Z 1]; [S754_nan]].


(** The path of momentum 0.37 for ten steps under the default root. *)
Definition path_037 : string :=
  "/tmp/matrix_factorizations/momentum_0p37/size=10".

End MoreSamples.

(** * Properties *)

(** ** Paths *)

Module PathFacts.

Import Paths Vocabulary.
Local Open Scope string_scope.
#[local] Arguments String.append !_ _ / : simpl nomatch.

Lemma has_slash_app s t : has_slash (s ++ t) = has_slash s || has_slash t.
Proof.
  induction s as [|c s IH]; simpl; [reflexivity|].
  rewrite IH. apply orb_assoc.
Qed.

Lemma app_cancel_l s a b : s ++ a = s ++ b -> a = b.
Proof.
  induction s as [|c s IH]; simpl; intros E; [assumption|].
  injection E as E. auto.
Qed.

(** The last segment of a path determines where it starts. *)
Lemma split_last_segment a1 a2 t1 t2 :
  has_slash t1 = false -> has_slash t2 = false ->
  a1 ++ "/" ++ t1 = a2 ++ "/" ++ t2 -> a1 = a2 /\ t1 = t2.
Proof.
  intros H1 H2. revert a2.
  induction a1 as [|c a1 IH]; intros [|c' a2]; simpl; intros E.
  - injection E as E. auto.
  - injection E as Ec E. subst t1.
    rewrite has_slash_app in H1. simpl in H1.
    rewrite orb_true_r in H1. discriminate.
  - injection E as Ec E. subst t2.
    rewrite has_slash_app in H2. simpl in H2.
    rewrite orb_true_r in H2. discriminate.
  - injection E as Ec E. subst c'.
    destruct (IH _ E) as [-> ->]. auto.
Qed.

Lemma digits_no_slash d : has_slash (NilEmpty.string_of_uint d) = false.
Proof. induction d; simpl; auto. Qed.

Lemma format_d_no_slash n : has_slash (format_d n) = false.
Proof.
  unfold format_d.
  destruct (Z.to_int n) as [d|d]; simpl;
    destruct d; simpl; auto using digits_no_slash.
Qed.

Lemma to_int_not_nil n : Z.to_int n <> Decimal.Pos Decimal.Nil
                         /\ Z.to_int n <> Decimal.Neg Decimal.Nil.
Proof.
  destruct n as [|p|p]; simpl; split; try discriminate;
    intros E; injection E as E; exact (DecimalPos.Unsigned.to_uint_nonnil p E).
Qed.

(** Distinct integers print differently. *)
Lemma format_d_inj n1 n2 : format_d n1 = format_d n2 -> n1 = n2.
Proof.
  unfold format_d. intros E.
  apply DecimalZ.to_int_inj.
  destruct (to_int_not_nil n1) as [P1 N1], (to_int_not_nil n2) as [P2 N2].
  pose proof (NilZero.isi _ P1 N1) as I1.
  pose proof (NilZero.isi _ P2 N2) as I2.
  rewrite E in I1. congruence.
Qed.

Lemma get_matrix_path_eq root n mechanism_name :
  get_matrix_path root n mechanism_name
  = root ++ "/" ++ mechanism_name ++ "/" ++ "size=" ++ format_d n.
Proof. reflexivity. Qed.

Lemma get_matrix_path_inj root n1 m1 n2 m2 :
  get_matrix_path root n1 m1 = get_matrix_path root n2 m2 ->
  n1 = n2 /\ m1 = m2.
Proof.
  rewrite !get_matrix_path_eq. intros E.
  apply app_cancel_l in E. simpl in E. injection E as E.
  apply (split_last_segment m1 m2 ("size=" ++ format_d n1)
           ("size=" ++ format_d n2)) in E.
  - destruct E as [-> E]. simpl in E.
    injection E as E. apply format_d_inj in E. auto.
  - simpl. apply format_d_no_slash.
  - simpl. apply format_d_no_slash.
Qed.

(** C7.  [get_matrix_path] joins the root, the mechanism name and
    [size=<n>] with ['/']; the same pair [(n, mechanism)] always gives the
    same path and two different pairs give different paths.  Proved for
    every integer [n] and every mechanism name, so in particular for
    positive [n] and the canonical identifiers. *)
Theorem C7_get_matrix_path_deterministic_injective :
  forall (root : string) (n1 n2 : Z) (m1 m2 : string),
    get_matrix_path root n1 m1
    = _join_path [root; m1; "size=" ++ format_d n1]
    /\ _join_path [root; m1; "size=" ++ format_d n1]
       = root ++ "/" ++ m1 ++ "/" ++ "size=" ++ format_d n1
    /\ (get_matrix_path root n1 m1 = get_matrix_path root n2 m2
        <-> n1 = n2 /\ m1 = m2).
Proof.
  intros root n1 n2 m1 m2. split; [reflexivity|]. split; [reflexivity|].
  split.
  - apply get_matrix_path_inj.
  - intros [-> ->]. reflexivity.
Qed.

End PathFacts.

(** ** Momentum paths *)

Module MomentumFacts.

Import Paths Vocabulary.
Local Open Scope string_scope.

Lemma same_float_eq x y : same_float x y = true -> x = y.
Proof.
  destruct x as [s|s| |s m e], y as [s'|s'| |s' m' e']; simpl;
    try discriminate; try reflexivity.
  - intros H. apply Bool.eqb_prop in H. congruence.
  - intros H. apply Bool.eqb_prop in H. congruence.
  - intros H. apply andb_prop in H as [H He]. apply andb_prop in H as [Hs Hm].
    apply Bool.eqb_prop in Hs. apply Pos.eqb_eq in Hm. apply Z.eqb_eq in He.
    congruence.
Qed.

Lemma reads_back_all_below_one (n : Z) :
  forallb (fun k => reads_back n (hundredths (Z.of_nat k))) (seq 0 100) = true.
Proof. vm_compute. reflexivity. Qed.

(** Below 1.0 the momentum is read back from the path of every accepted
    two-decimal value, whatever [n] is. *)
Lemma momentum_roundtrip_below_one (n : Z) (k : nat) :
  (k < 100)%nat ->
  exists path,
    get_momentum_path _FACTORIZATION_ROOT n (hundredths (Z.of_nat k)) = Ok path
    /\ infer_momentum_from_path path = Some (hundredths (Z.of_nat k)).
Proof.
  intros Hk.
  pose proof (reads_back_all_below_one n) as Hall.
  rewrite forallb_forall in Hall.
  specialize (Hall k). unfold reads_back in Hall.
  destruct (get_momentum_path _ n _) as [path|e].
  - exists path. split; [reflexivity|].
    destruct (infer_momentum_from_path path) as [m|].
    + f_equal. apply same_float_eq, Hall, in_seq. lia.
    + exfalso. assert (false = true) by (apply Hall, in_seq; lia). discriminate.
  - exfalso. assert (false = true) by (apply Hall, in_seq; lia). discriminate.
Qed.

(** C1 (the code at the failing input).  Momentum 1.0 passes both tests of
    [get_momentum_path], is written with three digits, and
    [infer_momentum_from_path] reads the first two of them: the path built
    for 1.0 yields 0.1, which is not 1.0. *)
Theorem C1_momentum_one_is_read_back_as_a_tenth :
  forall n : Z,
    get_momentum_path _FACTORIZATION_ROOT n (Float64.of_Z 1)
    = Ok ("/tmp/matrix_factorizations/momentum_0p100/size=" ++ format_d n)
    /\ infer_momentum_from_path
         ("/tmp/matrix_factorizations/momentum_0p100/size=" ++ format_d n)
       = Some (hundredths 10)
    /\ Float64.eqb (hundredths 10) (Float64.of_Z 1) = false
    /\ Float64.eqb (Float64.round2 (Float64.of_Z 1)) (Float64.of_Z 1) = true.
Proof.
  intros n. split; [|split; [|split]]; vm_compute; reflexivity.
Qed.

(** Negative zero is accepted as well ([0.0 <= -0.0] holds); it is written
    [-0], where the pattern finds no two digits. *)
Lemma momentum_negative_zero_not_recovered (n : Z) :
  get_momentum_path _FACTORIZATION_ROOT n (S754_zero true)
  = Ok ("/tmp/matrix_factorizations/momentum_0p-0/size=" ++ format_d n)
  /\ re_search "/tmp/matrix_factorizations/momentum_0p-0/size=" = None.
Proof. split; vm_compute; reflexivity. Qed.

(** C6.  [get_momentum_path] raises [ValueError] (InvalidArgument) when
    the momentum is not within [0, 1] (the comparison [0.0 <= m <= 1.0]
    is false, which includes NaN) or when [round(m, 2) != m]. *)
Theorem C6_get_momentum_path_rejects :
  forall (root : string) (n : Z) (momentum : Float64.t),
    Float64.leb (Float64.of_Z 0) momentum && Float64.leb momentum (Float64.of_Z 1)
      = false
    \/ Float64.eqb (Float64.round2 momentum) momentum = false ->
    get_momentum_path root n momentum = Err InvalidArgument.
Proof.
  intros root n momentum [H|H]; unfold get_momentum_path.
  - rewrite H. reflexivity.
  - rewrite H. simpl.
    destruct (negb _); reflexivity.
Qed.

(** The three values named by the specification, and 0.005, which is in
    range but has a third decimal. *)
Lemma C6_rejected_values :
  get_momentum_path _FACTORIZATION_ROOT 10 (Float64.of_ratio 1005 1000)
  = Err InvalidArgument
  /\ get_momentum_path _FACTORIZATION_ROOT 10 (Float64.of_ratio (-1) 10)
     = Err InvalidArgument
  /\ get_momentum_path _FACTORIZATION_ROOT 10 (Float64.of_ratio 15 10)
     = Err InvalidArgument
  /\ get_momentum_path _FACTORIZATION_ROOT 10 (Float64.of_ratio 5 1000)
     = Err InvalidArgument.
Proof.
  split; [|split; [|split]].
  - apply C6_get_momentum_path_rejects. left. vm_compute. reflexivity.
  - apply C6_get_momentum_path_rejects. left. vm_compute. reflexivity.
  - apply C6_get_momentum_path_rejects. left. vm_compute. reflexivity.
  - apply C6_get_momentum_path_rejects. right. vm_compute. reflexivity.
Defined.

End MomentumFacts.

(** ** The reconstruction check *)

Module VerifyFacts.

Import Vocabulary Samples.

Section Generic.

Context {num : Type} {A : Arith num}.

Lemma isclose_spec (a d : num) :
  isclose a d = true <-> within_tolerance a d.
Proof.
  unfold isclose, within_tolerance.
  destruct (f_is_nan a), (f_is_nan d); simpl;
    try (split; [discriminate | intros [[? ?]|[(? & ? & _)|(? & ? & _)]];
                                discriminate]).
  - split; auto.
  - destruct (f_is_inf a), (f_is_inf d); simpl.
    + split; [intros E; right; left; auto 6|].
      intros [[? _]|[(_ & _ & _ & E)|(_ & _ & ? & _)]];
        [discriminate | exact E | discriminate].
    + split; [intros E; right; left; auto 6|].
      intros [[? _]|[(_ & _ & _ & E)|(_ & _ & ? & _)]];
        [discriminate | exact E | discriminate].
    + split; [intros E; right; left; auto 6|].
      intros [[? _]|[(_ & _ & _ & E)|(_ & _ & _ & ? & _)]];
        [discriminate | exact E | discriminate].
    + split; [intros E; right; right; auto 6|].
      intros [[? _]|[(_ & _ & [?|?] & _)|(_ & _ & _ & _ & E)]];
        [discriminate | discriminate | discriminate | exact E].
Qed.

Lemma forallb2_Forall2 {X Y} (p : X -> Y -> bool) (P : X -> Y -> Prop) :
  (forall x y, p x y = true <-> P x y) ->
  forall xs ys, forallb2 p xs ys = true <-> Forall2 P xs ys.
Proof.
  intros HpP xs.
  induction xs as [|x xs IH]; intros [|y ys]; simpl.
  - split; [constructor | reflexivity].
  - split; [discriminate | inversion 1].
  - split; [discriminate | inversion 1].
  - rewrite andb_true_iff, HpP, IH. split.
    + intros [? ?]. constructor; assumption.
    + inversion 1; subst. auto.
Qed.

Lemma allclose_spec (actual desired : matrix num) :
  allclose actual desired = true
  <-> length (m_rows actual) = length (m_rows desired)
      /\ m_ncols actual = m_ncols desired
      /\ Forall2 (Forall2 within_tolerance) (m_rows actual) (m_rows desired).
Proof.
  unfold allclose, same_shape.
  rewrite !andb_true_iff, !Nat.eqb_eq.
  rewrite (forallb2_Forall2 (forallb2 isclose) (Forall2 within_tolerance)).
  - tauto.
  - apply forallb2_Forall2, isclose_spec.
Qed.

Lemma matmul_product (w h : matrix num) :
  length (m_rows h) = m_ncols w -> matmul w h = Ok (product w h).
Proof.
  intros E. unfold matmul. rewrite E, Nat.eqb_refl. reflexivity.
Qed.

(** C2, amended.  For float64 [W] and [H] whose inner sizes agree,
    [verify_reconstruction] computes [R = W @ H] and succeeds exactly
    when [S] has the shape of [R] and every entry passes the test of
    [assert_allclose] with the tolerance measured against [R]:
    [|S[i,j] - R[i,j]| <= 1e-8 + 1e-6 * |R[i,j]|] (NaN only against NaN,
    an infinity only against itself); otherwise it fails with
    ReconstructionMismatch. *)
Theorem C2_verify_reconstruction_tolerance_against_product :
  forall (w_matrix h_matrix s_matrix : matrix num),
    m_dtype w_matrix = float64 ->
    m_dtype h_matrix = float64 ->
    length (m_rows h_matrix) = m_ncols w_matrix ->
    matmul w_matrix h_matrix = Ok (product w_matrix h_matrix)
    /\ (verify_reconstruction w_matrix h_matrix s_matrix = Ok tt
        <-> length (m_rows s_matrix)
            = length (m_rows (product w_matrix h_matrix))
            /\ m_ncols s_matrix = m_ncols (product w_matrix h_matrix)
            /\ Forall2 (Forall2 within_tolerance)
                 (m_rows s_matrix) (m_rows (product w_matrix h_matrix)))
    /\ (verify_reconstruction w_matrix h_matrix s_matrix = Ok tt
        \/ verify_reconstruction w_matrix h_matrix s_matrix
           = Err ReconstructionMismatch).
Proof.
  intros w h s Hw Hh Hin.
  split; [apply matmul_product, Hin|].
  unfold verify_reconstruction.
  rewrite Hw, Hh, (matmul_product _ _ Hin).
  change (negb (bool_decide (float64 = float64))) with false.
  cbv beta iota delta [rbind].
  rewrite <- allclose_spec.
  destruct (allclose s (product w h)).
  - split; [tauto | left; reflexivity].
  - split; [split; discriminate | right; reflexivity].
Qed.

End Generic.

(** C2 as stated fails: every entry is within [1e-8 + 1e-6 * |S|] of the
    product, and [verify_reconstruction] raises. *)
Lemma C2_tolerance_against_target_counterexample :
  m_dtype W0 = float64 /\ m_dtype H0 = float64
  /\ matmul W0 H0 = Ok (Matrix float64 1 [[S754_zero false]])
  /\ Forall2 (Forall2 within_tolerance_of_target)
       [[S754_zero false]] (m_rows S0)
  /\ verify_reconstruction W0 H0 S0 = Err ReconstructionMismatch
  /\ ~ (verify_reconstruction W0 H0 S0 = Ok tt
        <-> Forall2 (Forall2 within_tolerance_of_target)
              [[S754_zero false]] (m_rows S0)).
Proof.
  assert (Hclose : Forall2 (Forall2 within_tolerance_of_target)
                     [[S754_zero false]] (m_rows S0)).
  { repeat constructor. }
  assert (Hfail : verify_reconstruction W0 H0 S0 = Err ReconstructionMismatch).
  { vm_compute. reflexivity. }
  split; [reflexivity|]. split; [reflexivity|].
  split; [vm_compute; reflexivity|].
  split; [exact Hclose|]. split; [exact Hfail|].
  intros [_ Hiff]. specialize (Hiff Hclose).
  rewrite Hfail in Hiff. discriminate.
Qed.

Lemma C2_verify_reconstruction_witness :
  verify_reconstruction W0 H0 W0 = Ok tt.
Proof.
  destruct (C2_verify_reconstruction_tolerance_against_product W0 H0 W0)
    as (_ & Hiff & _); [reflexivity | reflexivity | reflexivity |].
  apply Hiff.
  split; [reflexivity|]. split; [reflexivity|].
  constructor; [|constructor]. constructor; [|constructor].
  right. right. vm_compute. auto 6.
Defined.

End VerifyFacts.

(** ** The sensitivity scaler on binary64 *)

Module ScalerFloat.

Import Vocabulary Samples.















(** The scaler has no [InvalidArgument] at all: the only exception is
    that of [np.max] on a matrix without columns. *)
Lemma scaler_raises_only_empty_reduction
    (w_matrix h_matrix : matrix Float64.t) (e : error) :
  scale_w_h_by_single_participation_sensitivity w_matrix h_matrix = Err e ->
  e = EmptyReduction /\ m_ncols h_matrix = 0%nat.
Proof.
  unfold scale_w_h_by_single_participation_sensitivity, max_col_norm,
    column_norms.
  destruct (m_ncols h_matrix) as [|k]; simpl.
  - intros [= <-]. auto.
  - discriminate.
Qed.

(** *** Rounding *)

(** In the normal range the two equalities hold up to rounding only: for
    [H2] the scaled pair has a product one unit in the last place away
    from [W2 @ H2], and the maximal column norm of the scaled [H2] is the
    number below 1.0. *)
Lemma rounding_moves_the_last_bit :
  exists (m near_six : Float64.t) (w' h' : matrix Float64.t),
    max_col_norm H2 = Ok m
    /\ Float64.eqb m pzero = false
    /\ scale_w_h_by_single_participation_sensitivity W2 H2 = Ok (w', h')
    /\ matmul W2 H2 = Ok (Matrix float64 1 [[six]])
    /\ matmul w' h' = Ok (Matrix float64 1 [[near_six]])
    /\ Float64.eqb near_six six = false
    /\ max_col_norm h' = Ok below_one
    /\ Float64.eqb below_one one = false.
Proof.
  eexists; eexists; eexists; eexists.
  split; [vm_compute; reflexivity|].
  split; [vm_compute; reflexivity|].
  split; [vm_compute; reflexivity|].
  split; [vm_compute; reflexivity|].
  split; [vm_compute; reflexivity|].
  split; [vm_compute; reflexivity|].
  split; vm_compute; reflexivity.
Qed.

(** *** Overflow and underflow of the squares *)

(** C4 (the code at the failing input).  The column [[1e200], [1.0]] has
    the Euclidean norm 1e200, but its squares are added before the root is
    taken and 1e400 is beyond binary64: the maximal column norm comes out
    as infinity.  Whatever [W] is, the scaler then returns [W] times
    infinity and an all-zero [H'], whose maximal column norm is 0.0, not
    1.0.  For [W = [[1.0, 0.0]]] the scaled [W'] is [[inf, nan]] and the
    product [W' @ H'] is NaN where [W @ H] is 1e200. *)
Theorem C4_overflow_breaks_the_scaling :
  max_col_norm H_huge = Ok (S754_infinity false)
  /\ (forall w_matrix : matrix Float64.t,
        scale_w_h_by_single_participation_sensitivity w_matrix H_huge
        = Ok (map_matrix (fun w => Float64.mul w (S754_infinity false))
                         w_matrix,
              Matrix float64 1 [[pzero]; [pzero]]))
  /\ max_col_norm (Matrix float64 1 [[pzero]; [pzero]]) = Ok pzero
  /\ Float64.eqb pzero one = false
  /\ scale_w_h_by_single_participation_sensitivity W2 H_huge
     = Ok (Matrix float64 2 [[S754_infinity false; S754_nan]],
           Matrix float64 1 [[pzero]; [pzero]])
  /\ matmul W2 H_huge = Ok (Matrix float64 1 [[huge]])
  /\ matmul (Matrix float64 2 [[S754_infinity false; S754_nan]])
            (Matrix float64 1 [[pzero]; [pzero]])
     = Ok (Matrix float64 1 [[S754_nan]]).
Proof.
  assert (Hm : max_col_norm H_huge = Ok (S754_infinity false))
    by (vm_compute; reflexivity).
  split; [exact Hm|].
  split.
  { intros w_matrix.
    unfold scale_w_h_by_single_participation_sensitivity.
    rewrite Hm. cbv beta iota delta [rbind].
    do 2 f_equal; vm_compute; reflexivity. }
  split; [vm_compute; reflexivity|].
  split; [vm_compute; reflexivity|].
  split; [vm_compute; reflexivity|].
  split; vm_compute; reflexivity.
Qed.

(** The same at the other end: the square of 1e-200 is rounded to zero,
    the norm of the column [[1e-200]] comes out as 0.0 and the scaler
    divides by it. *)
Lemma underflow_breaks_the_scaling :
  max_col_norm H_tiny = Ok pzero
  /\ scale_w_h_by_single_participation_sensitivity
       (Matrix float64 1 [[one]]) H_tiny
     = Ok (Matrix float64 1 [[pzero]],
           Matrix float64 1 [[S754_infinity false]]).
Proof. split; vm_compute; reflexivity. Qed.

End ScalerFloat.

(** ** The write pipeline and the loader *)

Module StorageFacts.

Import Paths Storage Vocabulary.

Lemma join_two (a b : string) : _join_path [a; b] = (a +:+ "/" +:+ b)%string.
Proof. reflexivity. Qed.

Lemma join_inj (dir a b : string) :
  _join_path [dir; a] = _join_path [dir; b] -> a = b.
Proof.
  rewrite !join_two. intros E.
  apply PathFacts.app_cancel_l in E. injection E as E. exact E.
Qed.

Lemma w_path_not_h_path (dir : string) :
  _join_path [dir; W_MATRIX_STRING] <> _join_path [dir; H_MATRIX_STRING].
Proof. intros E. apply join_inj in E. discriminate E. Qed.

Lemma w_path_not_lr_path (dir : string) :
  _join_path [dir; W_MATRIX_STRING] <> _join_path [dir; LR_VECTOR_STRING].
Proof. intros E. apply join_inj in E. discriminate E. Qed.

Lemma h_path_not_lr_path (dir : string) :
  _join_path [dir; H_MATRIX_STRING] <> _join_path [dir; LR_VECTOR_STRING].
Proof. intros E. apply join_inj in E. discriminate E. Qed.

Section Pipeline.

Context {num : Type} {A : Arith num}.

Lemma verify_and_write_failed_verification
    (w h s : matrix num) (dir : string) (lr : option (vector num))
    (st : store num) (e : error) :
  verify_reconstruction w h s = Err e ->
  verify_and_write w h s dir lr st = (Err e, st).
Proof.
  intros E. unfold verify_and_write, io_bind, io_lift.
  rewrite E. reflexivity.
Qed.

Lemma verify_and_write_wrong_length
    (w h s : matrix num) (dir : string) (lr : vector num) (st : store num) :
  verify_reconstruction w h s = Ok tt ->
  length (v_data lr) <> m_ncols h ->
  verify_and_write w h s dir (Some lr) st
  = (Err SizeMismatch, after_w_and_h w h dir st).
Proof.
  intros E Hlen. unfold verify_and_write, io_bind, io_lift.
  rewrite E.
  apply Nat.eqb_neq in Hlen. rewrite Hlen. reflexivity.
Qed.

Lemma after_w_and_h_written (w h : matrix num) (dir : string)
    (st : store num) :
  written (after_w_and_h w h dir st)
  = written st ++ [_join_path [dir; W_MATRIX_STRING];
                   _join_path [dir; H_MATRIX_STRING]].
Proof.
  unfold after_w_and_h, write_file. cbn [snd written].
  rewrite <- app_assoc. reflexivity.
Qed.

Lemma after_w_and_h_blobs (w h : matrix num) (dir : string)
    (st : store num) :
  blobs (after_w_and_h w h dir st)
  = <[_join_path [dir; H_MATRIX_STRING] := MatrixBlob h]>
      (<[_join_path [dir; W_MATRIX_STRING] := MatrixBlob w]> (blobs st)).
Proof. reflexivity. Qed.

(** C3.  When the reconstruction check raises (TypeMismatch for a [W]
    or [H] that is not float64, ReconstructionMismatch, or the product
    itself being refused), [verify_and_write] raises the same error and
    the store is the one it started from: no blob, no directory and no
    entry in the list of writes has been added. *)
Theorem C3_failed_verification_writes_nothing :
  forall (w_matrix h_matrix s_matrix : matrix num) (output_dir : string)
         (lr_sched : option (vector num)) (st : store num) (e : error),
    verify_reconstruction w_matrix h_matrix s_matrix = Err e ->
    verify_and_write w_matrix h_matrix s_matrix output_dir lr_sched st
    = (Err e, st)
    /\ written (snd (verify_and_write w_matrix h_matrix s_matrix
                       output_dir lr_sched st)) = written st.
Proof.
  intros w h s dir lr st e E.
  rewrite (verify_and_write_failed_verification w h s dir lr st e E).
  split; reflexivity.
Qed.

(** A [W] or [H] of another dtype is a TypeMismatch. *)
Lemma verify_reconstruction_dtype (w h s : matrix num) :
  m_dtype w <> float64 \/ m_dtype h <> float64 ->
  verify_reconstruction w h s = Err TypeMismatch.
Proof.
  unfold verify_reconstruction. intros [Hw|Hh].
  - rewrite bool_decide_eq_false_2 by exact Hw. reflexivity.
  - rewrite (bool_decide_eq_false_2 _ Hh).
    destruct (negb _); reflexivity.
Qed.

(** C8.  With [W], [H], [S] that pass the check and a learning-rate
    vector whose length is not the number of columns of [H],
    [verify_and_write] fails with SizeMismatch (an [AssertionError]). *)
Theorem C8_wrong_length_is_size_mismatch :
  forall (w_matrix h_matrix s_matrix : matrix num) (output_dir : string)
         (lr_sched : vector num) (st : store num),
    verify_reconstruction w_matrix h_matrix s_matrix = Ok tt ->
    length (v_data lr_sched) <> m_ncols h_matrix ->
    fst (verify_and_write w_matrix h_matrix s_matrix output_dir
           (Some lr_sched) st) = Err SizeMismatch
    /\ exception_class SizeMismatch = AssertionError.
Proof.
  intros w h s dir lr st E Hlen.
  rewrite (verify_and_write_wrong_length w h s dir lr st E Hlen).
  split; reflexivity.
Qed.

(** C9.  In that case the length is only compared after the blobs of
    [W] and [H] have been written: the error comes with both of them in
    the store, these two writes and no other, and whatever was at the
    learning-rate path before (nothing, in a fresh directory). *)
Theorem C9_wrong_length_leaves_w_and_h :
  forall (w_matrix h_matrix s_matrix : matrix num) (output_dir : string)
         (lr_sched : vector num) (st : store num),
    verify_reconstruction w_matrix h_matrix s_matrix = Ok tt ->
    length (v_data lr_sched) <> m_ncols h_matrix ->
    let outcome := verify_and_write w_matrix h_matrix s_matrix output_dir
                     (Some lr_sched) st in
    fst outcome = Err SizeMismatch
    /\ written (snd outcome)
       = written st ++ [_join_path [output_dir; W_MATRIX_STRING];
                        _join_path [output_dir; H_MATRIX_STRING]]
    /\ blobs (snd outcome) !! _join_path [output_dir; W_MATRIX_STRING]
       = Some (MatrixBlob w_matrix)
    /\ blobs (snd outcome) !! _join_path [output_dir; H_MATRIX_STRING]
       = Some (MatrixBlob h_matrix)
    /\ blobs (snd outcome) !! _join_path [output_dir; LR_VECTOR_STRING]
       = blobs st !! _join_path [output_dir; LR_VECTOR_STRING].
Proof.
  intros w h s dir lr st E Hlen outcome. subst outcome.
  rewrite (verify_and_write_wrong_length w h s dir lr st E Hlen).
  cbn [fst snd].
  split; [reflexivity|].
  split; [apply after_w_and_h_written|].
  rewrite after_w_and_h_blobs.
  split; [|split].
  - rewrite lookup_insert_ne by (apply not_eq_sym, w_path_not_h_path).
    apply lookup_insert_eq.
  - apply lookup_insert_eq.
  - rewrite lookup_insert_ne by apply h_path_not_lr_path.
    apply lookup_insert_ne, w_path_not_lr_path.
Qed.

End Pipeline.

Section Loader.

Context {num : Type}.

Lemma exists_of_blob (path : string) (st : store num) :
  is_Some (blobs st !! path) -> exists_ path st = true.
Proof.
  intros H. unfold exists_.
  rewrite (bool_decide_eq_true_2 _ H). apply orb_true_r.
Qed.

Lemma blob_of_not_exists (path : string) (st : store num) :
  exists_ path st = false -> blobs st !! path = None.
Proof.
  unfold exists_. intros H. apply orb_false_elim in H as [_ H].
  apply bool_decide_eq_false_1 in H.
  destruct (blobs st !! path) as [b|] eqn:E; [|reflexivity].
  exfalso. apply H. exists b. reflexivity.
Qed.

(** A load that finds no learning rates means there is no such blob. *)
Lemma load_without_lr (path : string) (st : store num)
    (w h : matrix num) :
  load_w_h_and_maybe_lr path st = Ok (w, h, None) ->
  blobs st !! _join_path [path; LR_VECTOR_STRING] = None.
Proof.
  unfold load_w_h_and_maybe_lr, rbind.
  destruct (negb _); [discriminate|].
  destruct (read_file (_join_path [path; W_MATRIX_STRING]) st) as [bw|];
    [|discriminate].
  destruct (parse_matrix bw); [|discriminate].
  destruct (read_file (_join_path [path; H_MATRIX_STRING]) st) as [bh|];
    [|discriminate].
  destruct (parse_matrix bh); [|discriminate].
  destruct (exists_ (_join_path [path; LR_VECTOR_STRING]) st) eqn:Hex.
  - destruct (read_file _ st) as [bl|]; [|discriminate].
    destruct (parse_vector bl); discriminate.
  - intros _. apply blob_of_not_exists, Hex.
Qed.

(** A complete artifact with learning rates is loaded with them. *)
Lemma load_with_lr (path : string) (st : store num)
    (w h : matrix num) (lr : vector num) :
  path ∈ dirs st ->
  blobs st !! _join_path [path; W_MATRIX_STRING] = Some (MatrixBlob w) ->
  m_dtype w = float64 ->
  blobs st !! _join_path [path; H_MATRIX_STRING] = Some (MatrixBlob h) ->
  m_dtype h = float64 ->
  blobs st !! _join_path [path; LR_VECTOR_STRING] = Some (VectorBlob lr) ->
  v_dtype lr = float64 ->
  load_w_h_and_maybe_lr path st = Ok (w, h, Some lr).
Proof.
  intros Hdir Hw Hwd Hh Hhd Hlr Hlrd.
  unfold load_w_h_and_maybe_lr, rbind, read_file, exists_ at 1, isdir.
  rewrite (bool_decide_eq_true_2 _ Hdir). cbn [orb andb negb].
  rewrite Hw. cbn [parse_matrix]. rewrite Hwd.
  rewrite Hh. cbn [parse_matrix]. rewrite Hhd.
  rewrite exists_of_blob by (rewrite Hlr; eexists; reflexivity).
  rewrite Hlr. cbn [parse_vector]. rewrite Hlrd. reflexivity.
Qed.

(** C10.  For a recognized aggregator method, whose path is [path]:
    [get_prefix_sum_w_h] fails on the assertion [lr_vector is None]
    when the artifact stored at [path] (the directory, float64 blobs
    for [W] and [H]) has a learning-rate blob; with such a blob in the
    store it never returns; and when it returns, the loader found no
    learning rates and the store has no blob at the learning-rate
    path. *)
Theorem C10_prefix_sum_rejects_learning_rates :
  forall (root : string) (n : Z) (aggregator_method path : string)
         (st : store num),
    prefix_sum_path root n aggregator_method = Ok path ->
    (forall (w h : matrix num) (lr : vector num),
        path ∈ dirs st ->
        blobs st !! _join_path [path; W_MATRIX_STRING]
          = Some (MatrixBlob w) ->
        m_dtype w = float64 ->
        blobs st !! _join_path [path; H_MATRIX_STRING]
          = Some (MatrixBlob h) ->
        m_dtype h = float64 ->
        blobs st !! _join_path [path; LR_VECTOR_STRING]
          = Some (VectorBlob lr) ->
        v_dtype lr = float64 ->
        get_prefix_sum_w_h root n aggregator_method st
        = Err UnexpectedLearningRates)
    /\ exception_class UnexpectedLearningRates = AssertionError
    /\ (is_Some (blobs st !! _join_path [path; LR_VECTOR_STRING]) ->
        forall wh, get_prefix_sum_w_h root n aggregator_method st <> Ok wh)
    /\ (forall (w h : matrix num),
          get_prefix_sum_w_h root n aggregator_method st = Ok (w, h) ->
          load_w_h_and_maybe_lr path st = Ok (w, h, None)
          /\ blobs st !! _join_path [path; LR_VECTOR_STRING] = None).
Proof.
  intros root n method path st Hpath.
  assert (Hret : forall w h,
             get_prefix_sum_w_h root n method st = Ok (w, h) ->
             load_w_h_and_maybe_lr path st = Ok (w, h, None)).
  { intros w h. unfold get_prefix_sum_w_h. rewrite Hpath.
    cbn [rbind].
    destruct (load_w_h_and_maybe_lr path st) as [[[w' h'] [lr|]]|e];
      cbn [rbind]; try discriminate.
    intros [= -> ->]. reflexivity. }
  split; [|split; [reflexivity|split]].
  - intros w h lr Hdir Hw Hwd Hh Hhd Hlr Hlrd.
    unfold get_prefix_sum_w_h. rewrite Hpath. cbn [rbind].
    rewrite (load_with_lr path st w h lr) by assumption.
    reflexivity.
  - intros Hblob [w h] E.
    apply Hret, load_without_lr in E.
    rewrite E in Hblob. destruct Hblob as [b Hb]. discriminate Hb.
  - intros w h E. split; [apply Hret, E|].
    apply (load_without_lr path st w h), Hret, E.
Qed.

End Loader.

End StorageFacts.

(** ** Runs on a small factorization *)

Module Runs.

Import Paths Storage Vocabulary Samples.

Lemma C3_perturbed_target_witness :
  verify_and_write Wr Hr S_perturbed out_dir None empty_store
  = (Err ReconstructionMismatch, empty_store)
  /\ load_w_h_and_maybe_lr out_dir empty_store = Err NotFound.
Proof.
  split.
  - apply (StorageFacts.C3_failed_verification_writes_nothing
             Wr Hr S_perturbed out_dir None empty_store
             ReconstructionMismatch).
    vm_compute. reflexivity.
  - vm_compute. reflexivity.
Defined.

Lemma C8_three_rates_for_two_columns_witness :
  fst (verify_and_write Wr Hr Sr out_dir (Some lr_three) empty_store)
  = Err SizeMismatch.
Proof.
  apply (StorageFacts.C8_wrong_length_is_size_mismatch
           Wr Hr Sr out_dir lr_three empty_store).
  - vm_compute. reflexivity.
  - simpl. lia.
Defined.

Lemma C9_three_rates_for_two_columns_witness :
  written (snd (verify_and_write Wr Hr Sr out_dir (Some lr_three) empty_store))
  = ["/tmp/matrix_factorizations/prefix_opt/size=4/w_matrix_tensor_pb";
     "/tmp/matrix_factorizations/prefix_opt/size=4/h_matrix_tensor_pb"]%string
  /\ blobs (snd (verify_and_write Wr Hr Sr out_dir (Some lr_three) empty_store))
       !! _join_path [out_dir; LR_VECTOR_STRING] = None.
Proof.
  destruct (StorageFacts.C9_wrong_length_leaves_w_and_h
              Wr Hr Sr out_dir lr_three empty_store)
    as (_ & Hw & _ & _ & Hlr).
  - vm_compute. reflexivity.
  - simpl. lia.
  - split; [exact Hw | exact Hlr].
Defined.

Lemma C10_stored_rates_witness :
  get_prefix_sum_w_h _FACTORIZATION_ROOT 4 "opt_prefix_sum_matrix" store_with_lr
  = Err UnexpectedLearningRates.
Proof.
  destruct (StorageFacts.C10_prefix_sum_rejects_learning_rates
              _FACTORIZATION_ROOT 4 "opt_prefix_sum_matrix" out_dir
              store_with_lr) as (Hfail & _).
  - reflexivity.
  - apply (Hfail Wr Hr lr_two).
    + apply (bool_decide_unpack _). vm_compute. exact I.
    + vm_compute. reflexivity.
    + reflexivity.
    + vm_compute. reflexivity.
    + reflexivity.
    + vm_compute. reflexivity.
    + reflexivity.
Defined.

(** Without learning rates the same artifact is returned. *)
Lemma prefix_sum_returns_plain_artifact :
  get_prefix_sum_w_h _FACTORIZATION_ROOT 4 PREFIX_OPT
    (snd (verify_and_write Wr Hr Sr out_dir None empty_store))
  = Ok (Wr, Hr).
Proof. vm_compute. reflexivity. Qed.

End Runs.

(** ** Strings, once more *)

Module StringFacts.

Import Paths Vocabulary.
Local Open Scope string_scope.
#[local] Arguments String.append !_ _ / : simpl nomatch.

Lemma app_empty_r (s : string) : s ++ "" = s.
Proof. induction s as [|c s IH]; simpl; [reflexivity | rewrite IH; reflexivity]. Qed.

Lemma app_assoc (a b c : string) : (a ++ b) ++ c = a ++ b ++ c.
Proof. induction a as [|x a IH]; simpl; [reflexivity | rewrite IH; reflexivity]. Qed.

Lemma length_app (a b : string) :
  String.length (a ++ b) = (String.length a + String.length b)%nat.
Proof. induction a as [|x a IH]; simpl; [reflexivity | rewrite IH; reflexivity]. Qed.

End StringFacts.

(** ** Writing, then loading *)

Module StorageMore.

Import Paths Storage Vocabulary MoreVocabulary.
Local Open Scope string_scope.
#[local] Arguments String.append !_ _ / : simpl nomatch.

(** A path without ['/'] has no directory above it. *)
Lemma parents_of_segment (prefix name : string) :
  has_slash name = false -> parents_from prefix name = [].
Proof.
  revert prefix. induction name as [|c name IH]; intros prefix H; simpl in *.
  - reflexivity.
  - apply orb_false_elim in H as [Hc Hn]. rewrite Hc. simpl. apply IH, Hn.
Qed.

(** The directory of a blob is among those created with it. *)
Lemma parent_of_join (prefix dir name : string) :
  In (prefix ++ dir) (parents_from prefix (dir ++ "/" ++ name)).
Proof.
  revert prefix. induction dir as [|c dir IH]; intros prefix; simpl.
  - left. symmetry. apply StringFacts.app_empty_r.
  - apply in_or_app. right.
    specialize (IH (prefix ++ String c "")).
    rewrite StringFacts.app_assoc in IH. exact IH.
Qed.

(** Every directory created with a blob is at most as long as the
    directory the blob is in. *)
Lemma parents_are_short (prefix dir name x : string) :
  has_slash name = false ->
  In x (parents_from prefix (dir ++ "/" ++ name)) ->
  (String.length x <= String.length prefix + String.length dir)%nat.
Proof.
  intros Hname. revert prefix.
  induction dir as [|c dir IH]; intros prefix; simpl.
  - rewrite (parents_of_segment _ name Hname). simpl.
    intros [<-|[]]. lia.
  - intros Hin. apply in_app_or in Hin as [Hin|Hin].
    + destruct (Ascii.eqb c "/"); [|destruct Hin].
      destruct Hin as [<-|[]]. lia.
    + apply IH in Hin.
      rewrite StringFacts.length_app in Hin. simpl in Hin. lia.
Qed.

Lemma blob_path_not_parent (dir name name' : string) :
  has_slash name = false ->
  ~ In (_join_path [dir; name']) (parents (_join_path [dir; name])).
Proof.
  intros Hname Hin. unfold parents in Hin.
  rewrite (StorageFacts.join_two dir name) in Hin.
  apply (parents_are_short "" dir name _ Hname) in Hin.
  rewrite StorageFacts.join_two, !StringFacts.length_app in Hin.
  simpl in Hin. lia.
Qed.

Section Pipeline.

Context {num : Type} {A : Arith num}.

Lemma write_file_blobs (path : string) (b : blob num) (st : store num) :
  blobs (snd (write_file path b st)) = <[path := b]> (blobs st).
Proof. reflexivity. Qed.

Lemma write_file_dirs (path : string) (b : blob num) (st : store num) :
  dirs (snd (write_file path b st)) = list_to_set (parents path) ∪ dirs st.
Proof. reflexivity. Qed.

Lemma write_file_written (path : string) (b : blob num) (st : store num) :
  written (snd (write_file path b st)) = (written st ++ [path])%list.
Proof. reflexivity. Qed.

(** The store after all three writes. *)
Lemma verify_and_write_ok_none (w h s : matrix num) (dir : string)
    (st : store num) :
  verify_reconstruction w h s = Ok tt ->
  verify_and_write w h s dir None st = (Ok tt, after_w_and_h w h dir st).
Proof.
  intros E. unfold verify_and_write, io_bind, io_lift. rewrite E. reflexivity.
Qed.

Lemma verify_and_write_ok_some (w h s : matrix num) (dir : string)
    (lr : vector num) (st : store num) :
  verify_reconstruction w h s = Ok tt ->
  length (v_data lr) = m_ncols h ->
  verify_and_write w h s dir (Some lr) st
  = (Ok tt,
     snd (write_file (_join_path [dir; LR_VECTOR_STRING]) (VectorBlob lr)
            (after_w_and_h w h dir st))).
Proof.
  intros E Hlen. unfold verify_and_write, io_bind, io_lift. rewrite E.
  apply Nat.eqb_eq in Hlen. rewrite Hlen. reflexivity.
Qed.

Lemma verify_ok_dtypes (w h s : matrix num) :
  verify_reconstruction w h s = Ok tt ->
  m_dtype w = float64 /\ m_dtype h = float64.
Proof.
  unfold verify_reconstruction.
  destruct (decide (m_dtype w = float64)) as [Hw|Hw].
  - destruct (decide (m_dtype h = float64)) as [Hh|Hh]; [auto|].
    rewrite (bool_decide_eq_true_2 _ Hw), (bool_decide_eq_false_2 _ Hh).
    discriminate.
  - rewrite (bool_decide_eq_false_2 _ Hw). discriminate.
Qed.

Lemma dir_after_w_and_h (w h : matrix num) (dir : string) (st : store num) :
  dir ∈ dirs (after_w_and_h w h dir st).
Proof.
  unfold after_w_and_h. rewrite write_file_dirs.
  apply elem_of_union_l, elem_of_list_to_set, list_elem_of_In.
  unfold parents. rewrite StorageFacts.join_two.
  apply (parent_of_join "" dir).
Qed.

Lemma lr_path_not_dir_after_w_and_h (w h : matrix num) (dir : string)
    (st : store num) :
  _join_path [dir; LR_VECTOR_STRING] ∉ dirs st ->
  _join_path [dir; LR_VECTOR_STRING] ∉ dirs (after_w_and_h w h dir st).
Proof.
  intros Hst. unfold after_w_and_h. rewrite !write_file_dirs.
  rewrite !not_elem_of_union, !elem_of_list_to_set, !list_elem_of_In.
  split; [|split; [|exact Hst]];
    apply blob_path_not_parent; reflexivity.
Qed.

Lemma blobs_after_w_and_h_w (w h : matrix num) (dir : string) (st : store num) :
  blobs (after_w_and_h w h dir st) !! _join_path [dir; W_MATRIX_STRING]
  = Some (MatrixBlob w).
Proof.
  rewrite StorageFacts.after_w_and_h_blobs.
  rewrite lookup_insert_ne by (apply not_eq_sym, StorageFacts.w_path_not_h_path).
  apply lookup_insert_eq.
Qed.

Lemma blobs_after_w_and_h_h (w h : matrix num) (dir : string) (st : store num) :
  blobs (after_w_and_h w h dir st) !! _join_path [dir; H_MATRIX_STRING]
  = Some (MatrixBlob h).
Proof. rewrite StorageFacts.after_w_and_h_blobs. apply lookup_insert_eq. Qed.

Lemma blobs_after_w_and_h_lr (w h : matrix num) (dir : string) (st : store num) :
  blobs (after_w_and_h w h dir st) !! _join_path [dir; LR_VECTOR_STRING]
  = blobs st !! _join_path [dir; LR_VECTOR_STRING].
Proof.
  rewrite StorageFacts.after_w_and_h_blobs.
  rewrite lookup_insert_ne by apply StorageFacts.h_path_not_lr_path.
  apply lookup_insert_ne, StorageFacts.w_path_not_lr_path.
Qed.

Lemma not_exists_split (path : string) (st : store num) :
  exists_ path st = false <-> (path ∉ dirs st) /\ blobs st !! path = None.
Proof.
  unfold exists_. rewrite orb_false_iff, !bool_decide_eq_false.
  split; intros [Hd Hb]; (split; [exact Hd|]).
  - destruct (blobs st !! path) as [b|]; [|reflexivity].
    exfalso. apply Hb. eexists. reflexivity.
  - rewrite Hb. intros [b Hb']. discriminate Hb'.
Qed.

(** The loader on a directory with both matrices and nothing at the
    learning-rate path. *)
Lemma load_plain (path : string) (st : store num) (w h : matrix num) :
  path ∈ dirs st ->
  blobs st !! _join_path [path; W_MATRIX_STRING] = Some (MatrixBlob w) ->
  m_dtype w = float64 ->
  blobs st !! _join_path [path; H_MATRIX_STRING] = Some (MatrixBlob h) ->
  m_dtype h = float64 ->
  exists_ (_join_path [path; LR_VECTOR_STRING]) st = false ->
  load_w_h_and_maybe_lr path st = Ok (w, h, None).
Proof.
  intros Hdir Hw Hwd Hh Hhd Hlr.
  unfold load_w_h_and_maybe_lr, rbind, read_file, exists_ at 1, isdir.
  rewrite (bool_decide_eq_true_2 _ Hdir). cbn [orb andb negb].
  rewrite Hw. cbn [parse_matrix]. rewrite Hwd.
  rewrite Hh. cbn [parse_matrix]. rewrite Hhd.
  rewrite Hlr. reflexivity.
Qed.

(** X1.  An artifact written without learning rates into a directory that
    has nothing at the learning-rate path is loaded back as it was
    written: the same [W], the same [H], and no learning rates. *)
Theorem X1_write_then_load_without_rates :
  forall (w_matrix h_matrix s_matrix : matrix num) (output_dir : string)
         (st : store num),
    verify_reconstruction w_matrix h_matrix s_matrix = Ok tt ->
    exists_ (_join_path [output_dir; LR_VECTOR_STRING]) st = false ->
    load_w_h_and_maybe_lr output_dir
      (snd (verify_and_write w_matrix h_matrix s_matrix output_dir None st))
    = Ok (w_matrix, h_matrix, None).
Proof.
  intros w h s dir st E Hlr.
  rewrite (verify_and_write_ok_none w h s dir st E). cbn [snd].
  destruct (verify_ok_dtypes w h s E) as [Hwd Hhd].
  apply not_exists_split in Hlr as [Hnd Hnb].
  apply load_plain; auto using dir_after_w_and_h, blobs_after_w_and_h_w,
    blobs_after_w_and_h_h.
  apply not_exists_split. split.
  - apply lr_path_not_dir_after_w_and_h, Hnd.
  - rewrite blobs_after_w_and_h_lr. exact Hnb.
Qed.

(** X2.  An artifact written with float64 learning rates of the right
    length is loaded back with them, whatever the directory held before. *)
Theorem X2_write_then_load_with_rates :
  forall (w_matrix h_matrix s_matrix : matrix num) (output_dir : string)
         (lr_sched : vector num) (st : store num),
    verify_reconstruction w_matrix h_matrix s_matrix = Ok tt ->
    length (v_data lr_sched) = m_ncols h_matrix ->
    v_dtype lr_sched = float64 ->
    load_w_h_and_maybe_lr output_dir
      (snd (verify_and_write w_matrix h_matrix s_matrix output_dir
              (Some lr_sched) st))
    = Ok (w_matrix, h_matrix, Some lr_sched).
Proof.
  intros w h s dir lr st E Hlen Hlrd.
  rewrite (verify_and_write_ok_some w h s dir lr st E Hlen). cbn [snd].
  destruct (verify_ok_dtypes w h s E) as [Hwd Hhd].
  apply StorageFacts.load_with_lr; try assumption.
  - rewrite write_file_dirs. apply elem_of_union_r, dir_after_w_and_h.
  - rewrite write_file_blobs.
    rewrite lookup_insert_ne
      by (apply not_eq_sym, StorageFacts.w_path_not_lr_path).
    apply blobs_after_w_and_h_w.
  - rewrite write_file_blobs.
    rewrite lookup_insert_ne
      by (apply not_eq_sym, StorageFacts.h_path_not_lr_path).
    apply blobs_after_w_and_h_h.
  - rewrite write_file_blobs. apply lookup_insert_eq.
Qed.

(** X3.  The dtype of the learning rates is not checked when they are
    written: rates of another dtype are stored without an error, and the
    loader then refuses the artifact. *)
Theorem X3_rates_of_another_dtype_are_written_and_refused :
  forall (w_matrix h_matrix s_matrix : matrix num) (output_dir : string)
         (lr_sched : vector num) (st : store num),
    verify_reconstruction w_matrix h_matrix s_matrix = Ok tt ->
    length (v_data lr_sched) = m_ncols h_matrix ->
    v_dtype lr_sched <> float64 ->
    fst (verify_and_write w_matrix h_matrix s_matrix output_dir
           (Some lr_sched) st) = Ok tt
    /\ load_w_h_and_maybe_lr output_dir
         (snd (verify_and_write w_matrix h_matrix s_matrix output_dir
                 (Some lr_sched) st))
       = Err ParseFailure.
Proof.
  intros w h s dir lr st E Hlen Hlrd.
  rewrite (verify_and_write_ok_some w h s dir lr st E Hlen). cbn [fst snd].
  split; [reflexivity|].
  destruct (verify_ok_dtypes w h s E) as [Hwd Hhd].
  set (st' := snd (write_file _ _ _)).
  assert (Hdir : dir ∈ dirs st').
  { unfold st'. rewrite write_file_dirs.
    apply elem_of_union_r, dir_after_w_and_h. }
  assert (Hw : blobs st' !! _join_path [dir; W_MATRIX_STRING]
               = Some (MatrixBlob w)).
  { unfold st'. rewrite write_file_blobs.
    rewrite lookup_insert_ne
      by (apply not_eq_sym, StorageFacts.w_path_not_lr_path).
    apply blobs_after_w_and_h_w. }
  assert (Hh : blobs st' !! _join_path [dir; H_MATRIX_STRING]
               = Some (MatrixBlob h)).
  { unfold st'. rewrite write_file_blobs.
    rewrite lookup_insert_ne
      by (apply not_eq_sym, StorageFacts.h_path_not_lr_path).
    apply blobs_after_w_and_h_h. }
  assert (Hlr : blobs st' !! _join_path [dir; LR_VECTOR_STRING]
                = Some (VectorBlob lr)).
  { unfold st'. rewrite write_file_blobs. apply lookup_insert_eq. }
  unfold load_w_h_and_maybe_lr, rbind, read_file, exists_ at 1, isdir.
  rewrite (bool_decide_eq_true_2 _ Hdir). cbn [orb andb negb].
  rewrite Hw. cbn [parse_matrix]. rewrite Hwd.
  rewrite Hh. cbn [parse_matrix]. rewrite Hhd.
  rewrite StorageFacts.exists_of_blob by (rewrite Hlr; eexists; reflexivity).
  rewrite Hlr. cbn [parse_vector].
  rewrite (bool_decide_eq_false_2 _ Hlrd). reflexivity.
Qed.

(** The store [verify_and_write] leaves is the initial one, the one after
    the two mandatory writes, or the one after all three. *)
Lemma verify_and_write_store (w h s : matrix num) (dir : string)
    (lr : option (vector num)) (st : store num) :
  let st' := snd (verify_and_write w h s dir lr st) in
  st' = st
  \/ st' = after_w_and_h w h dir st
  \/ exists v, lr = Some v
       /\ st' = snd (write_file (_join_path [dir; LR_VECTOR_STRING])
                       (VectorBlob v) (after_w_and_h w h dir st)).
Proof.
  unfold verify_and_write, io_bind, io_lift.
  destruct (verify_reconstruction w h s) as [[]|e]; cbn [snd]; [|auto].
  destruct lr as [v|]; cbn; [|auto].
  destruct (length (v_data v) =? m_ncols h)%nat; cbn; eauto.
Qed.

(** X4.  Whatever it returns, [verify_and_write] changes no blob outside
    the three paths of its output directory, removes no blob and no
    directory, and only appends to the list of writes. *)
Theorem X4_verify_and_write_frame :
  forall (w_matrix h_matrix s_matrix : matrix num) (output_dir : string)
         (lr_sched : option (vector num)) (st : store num),
    let st' := snd (verify_and_write w_matrix h_matrix s_matrix output_dir
                      lr_sched st) in
    (forall path, ~ In path (artifact_paths output_dir) ->
                  blobs st' !! path = blobs st !! path)
    /\ (forall path, is_Some (blobs st !! path) -> is_Some (blobs st' !! path))
    /\ dirs st ⊆ dirs st'
    /\ exists more, written st' = (written st ++ more)%list.
Proof.
  intros w h s dir lr st st'.
  assert (Hframe : forall (stx : store num),
             (forall path, ~ In path (artifact_paths dir) ->
                           blobs (after_w_and_h w h dir stx) !! path
                           = blobs stx !! path)
             /\ (forall path, is_Some (blobs stx !! path) ->
                              is_Some (blobs (after_w_and_h w h dir stx) !! path))
             /\ dirs stx ⊆ dirs (after_w_and_h w h dir stx)).
  { intros stx. split; [|split].
    - intros path Hn. rewrite StorageFacts.after_w_and_h_blobs.
      rewrite !lookup_insert_ne; [reflexivity| |];
        intros <-; apply Hn; unfold artifact_paths; simpl; auto.
    - intros path Hs. rewrite StorageFacts.after_w_and_h_blobs.
      rewrite !lookup_insert_is_Some'. auto.
    - unfold after_w_and_h. rewrite !write_file_dirs. set_solver. }
  destruct (verify_and_write_store w h s dir lr st) as [E|[E|(v & _ & E)]];
    fold st' in E; rewrite E; clear E.
  - split; [reflexivity|]. split; [auto|]. split; [reflexivity|].
    exists []. symmetry. apply app_nil_r.
  - destruct (Hframe st) as (H1 & H2 & H3).
    split; [exact H1|]. split; [exact H2|]. split; [exact H3|].
    eexists. apply StorageFacts.after_w_and_h_written.
  - destruct (Hframe st) as (H1 & H2 & H3).
    rewrite write_file_blobs, write_file_dirs, write_file_written.
    split; [|split; [|split]].
    + intros path Hn. rewrite lookup_insert_ne; [apply H1, Hn|].
      intros <-. apply Hn. unfold artifact_paths. simpl. auto.
    + intros path Hs. rewrite lookup_insert_is_Some'. right. apply H2, Hs.
    + transitivity (dirs (after_w_and_h w h dir st));
        [exact H3 | apply union_subseteq_r].
    + rewrite StorageFacts.after_w_and_h_written, <- List.app_assoc.
      eexists. reflexivity.
Qed.

(** X5.  Writing without learning rates over a directory that holds
    float64 learning rates leaves them in place: the loader returns the new
    [W] and [H] together with the old rates. *)
Theorem X5_old_rates_survive_a_write_without_rates :
  forall (w_matrix h_matrix s_matrix : matrix num) (output_dir : string)
         (old_rates : vector num) (st : store num),
    verify_reconstruction w_matrix h_matrix s_matrix = Ok tt ->
    blobs st !! _join_path [output_dir; LR_VECTOR_STRING]
      = Some (VectorBlob old_rates) ->
    v_dtype old_rates = float64 ->
    load_w_h_and_maybe_lr output_dir
      (snd (verify_and_write w_matrix h_matrix s_matrix output_dir None st))
    = Ok (w_matrix, h_matrix, Some old_rates).
Proof.
  intros w h s dir old st E Hold Hd.
  rewrite (verify_and_write_ok_none w h s dir st E). cbn [snd].
  destruct (verify_ok_dtypes w h s E) as [Hwd Hhd].
  apply StorageFacts.load_with_lr;
    auto using dir_after_w_and_h, blobs_after_w_and_h_w, blobs_after_w_and_h_h.
  rewrite blobs_after_w_and_h_lr. exact Hold.
Qed.

(** X6.  A successful [verify_and_write] writes [W], then [H], then the
    learning rates if there are any, and nothing else. *)
Theorem X6_order_of_writes :
  forall (w_matrix h_matrix s_matrix : matrix num) (output_dir : string)
         (lr_sched : option (vector num)) (st : store num),
    fst (verify_and_write w_matrix h_matrix s_matrix output_dir lr_sched st)
      = Ok tt ->
    written (snd (verify_and_write w_matrix h_matrix s_matrix output_dir
                    lr_sched st))
    = (written st
       ++ [_join_path [output_dir; W_MATRIX_STRING];
           _join_path [output_dir; H_MATRIX_STRING]]
       ++ match lr_sched with
          | Some _ => [_join_path [output_dir; LR_VECTOR_STRING]]
          | None => []
          end)%list.
Proof.
  intros w h s dir lr st.
  unfold verify_and_write, io_bind, io_lift.
  destruct (verify_reconstruction w h s) as [[]|e]; cbn [fst snd];
    [|discriminate].
  destruct lr as [v|]; cbn.
  - destruct (length (v_data v) =? m_ncols h)%nat; cbn; [|discriminate].
    intros _. rewrite <- !List.app_assoc. reflexivity.
  - intros _. rewrite <- !List.app_assoc. reflexivity.
Qed.

End Pipeline.

Section PrefixSum.

Context {num : Type} {A : Arith num}.

Lemma load_never_unsupported (path : string) (st : store num) :
  load_w_h_and_maybe_lr path st <> Err UnsupportedMechanism.
Proof.
  unfold load_w_h_and_maybe_lr, rbind, read_file, parse_matrix, parse_vector.
  destruct (negb _); [discriminate|].
  destruct (blobs st !! _join_path [path; W_MATRIX_STRING]) as [[mw|vw]|];
    try discriminate.
  destruct (bool_decide (m_dtype mw = float64)); try discriminate.
  destruct (blobs st !! _join_path [path; H_MATRIX_STRING]) as [[mh|vh]|];
    try discriminate.
  destruct (bool_decide (m_dtype mh = float64)); try discriminate.
  destruct (exists_ _ st); [|discriminate].
  destruct (blobs st !! _join_path [path; LR_VECTOR_STRING]) as [[ml|vl]|];
    try discriminate.
  destruct (bool_decide (v_dtype vl = float64)); discriminate.
Qed.

Lemma prefix_sum_path_recognized (root : string) (n : Z) (method : string) :
  recognized method ->
  exists name,
    In name [PREFIX_OPT; PREFIX_ONLINE_HONAKER; PREFIX_FULL_HONAKER]
    /\ prefix_sum_path root n method = Ok (get_matrix_path root n name).
Proof.
  unfold recognized. simpl.
  intros [<-|[<-|[<-|[<-|[<-|[<-|[]]]]]]]; eexists; (split; [|reflexivity]);
    simpl; auto.
Qed.

Lemma prefix_sum_path_unrecognized (root : string) (n : Z) (method : string) :
  ~ recognized method ->
  prefix_sum_path root n method = Err UnsupportedMechanism.
Proof.
  unfold recognized, prefix_sum_path. simpl. intros Hn.
  repeat match goal with
         | |- context [String.eqb method ?s] =>
             destruct (String.eqb_spec method s) as [->|_];
             [exfalso; apply Hn; tauto|]
         end.
  reflexivity.
Qed.

(** X7.  [get_prefix_sum_w_h] raises [NotImplementedError] exactly for the
    methods other than the three canonical names and their three legacy
    aliases, and then whatever the store holds. *)
Theorem X7_unsupported_exactly_outside_the_six_names :
  forall (root : string) (n : Z) (aggregator_method : string) (st : store num),
    get_prefix_sum_w_h root n aggregator_method st = Err UnsupportedMechanism
    <-> ~ recognized aggregator_method.
Proof.
  intros root n method st. split.
  - intros E Hrec.
    destruct (prefix_sum_path_recognized root n method Hrec) as (name & _ & Hp).
    unfold get_prefix_sum_w_h in E. rewrite Hp in E. cbn [rbind] in E.
    pose proof (load_never_unsupported (get_matrix_path root n name) st) as Hl.
    destruct (load_w_h_and_maybe_lr _ st) as [[[w h] [lr|]]|e];
      cbn [rbind] in E; try discriminate.
    apply Hl. injection E as ->. reflexivity.
  - intros Hn. unfold get_prefix_sum_w_h.
    rewrite (prefix_sum_path_unrecognized root n method Hn). reflexivity.
Qed.

(** X8.  What [verify_and_write] stores without learning rates under the
    path of a recognized method, in a directory with nothing at the
    learning-rate path, is what [get_prefix_sum_w_h] returns for that
    method. *)
Theorem X8_prefix_sum_returns_what_was_written :
  forall (root : string) (n : Z) (aggregator_method path : string)
         (w_matrix h_matrix s_matrix : matrix num) (st : store num),
    prefix_sum_path root n aggregator_method = Ok path ->
    verify_reconstruction w_matrix h_matrix s_matrix = Ok tt ->
    exists_ (_join_path [path; LR_VECTOR_STRING]) st = false ->
    get_prefix_sum_w_h root n aggregator_method
      (snd (verify_and_write w_matrix h_matrix s_matrix path None st))
    = Ok (w_matrix, h_matrix).
Proof.
  intros root n method path w h s st Hp E Hlr.
  unfold get_prefix_sum_w_h. rewrite Hp. cbn [rbind].
  rewrite (verify_and_write_ok_none w h s path st E). cbn [snd].
  destruct (verify_ok_dtypes w h s E) as [Hwd Hhd].
  apply not_exists_split in Hlr as [Hnd Hnb].
  rewrite (load_plain path _ w h);
    auto using dir_after_w_and_h, blobs_after_w_and_h_w, blobs_after_w_and_h_h.
  apply not_exists_split. split.
  - apply lr_path_not_dir_after_w_and_h, Hnd.
  - rewrite blobs_after_w_and_h_lr. exact Hnb.
Qed.

End PrefixSum.

End StorageMore.

(** ** Reading the momentum from a path *)

Module SearchFacts.

Import Paths Vocabulary MoreVocabulary.
Local Open Scope string_scope.
#[local] Arguments String.append !_ _ / : simpl nomatch.

(** A prefix without ['/'] cannot end in the ['/'] that follows [s]. *)
Lemma strip_prefix_before_slash (p s t : string) :
  has_slash p = false ->
  strip_prefix p (s ++ "/" ++ t)
  = match strip_prefix p s with
    | Some r => Some (r ++ "/" ++ t)
    | None => None
    end.
Proof.
  revert s. induction p as [|a p IH]; intros s Hp; simpl in *.
  - reflexivity.
  - apply orb_false_elim in Hp as [Ha Hp].
    destruct s as [|b s]; simpl.
    + rewrite Ha. reflexivity.
    + destruct (Ascii.eqb a b); [apply IH, Hp | reflexivity].
Qed.

(** A match never reaches over a ['/']. *)
Lemma match_here_before_slash (s t : string) :
  match_here (s ++ "/" ++ t) = match_here s.
Proof.
  unfold match_here.
  rewrite strip_prefix_before_slash by reflexivity.
  destruct (strip_prefix "momentum_0p" s) as [[|d1 [|d2 r]]|]; simpl.
  - destruct t; reflexivity.
  - destruct (is_digit d1); reflexivity.
  - reflexivity.
  - reflexivity.
Qed.

Lemma re_search_unfold (s : string) :
  re_search s
  = match match_here s with
    | Some g => Some g
    | None => match s with
              | EmptyString => None
              | String _ s' => re_search s'
              end
    end.
Proof. destruct s; reflexivity. Qed.

(** The search goes through the segments of a path from left to right. *)
Lemma re_search_segments (s t : string) :
  re_search (s ++ "/" ++ t)
  = match re_search s with
    | Some g => Some g
    | None => re_search t
    end.
Proof.
  induction s as [|c s IH].
  - reflexivity.
  - rewrite (re_search_unfold (String c s ++ "/" ++ t)).
    rewrite match_here_before_slash.
    rewrite (re_search_unfold (String c s)).
    destruct (match_here (String c s)); [reflexivity|].
    simpl. exact IH.
Qed.

(** Without the letter [m] there is no match. *)
Lemma re_search_without_m (s : string) :
  occurs "m" s = false -> re_search s = None.
Proof.
  induction s as [|c s IH]; intros H; [reflexivity|].
  simpl in H. apply orb_false_elim in H as [Hc Hs].
  rewrite re_search_unfold.
  assert (Hm : match_here (String c s) = None).
  { unfold match_here.
    change (strip_prefix "momentum_0p" (String c s))
      with (if Ascii.eqb "m" c then strip_prefix "omentum_0p" s else None).
    rewrite Ascii.eqb_sym, Hc. reflexivity. }
  rewrite Hm. apply IH, Hs.
Qed.

Lemma digits_without_m d : occurs "m" (NilEmpty.string_of_uint d) = false.
Proof. induction d; simpl; auto. Qed.

Lemma format_d_without_m (n : Z) : occurs "m" (format_d n) = false.
Proof.
  unfold format_d.
  destruct (Z.to_int n) as [d|d]; simpl;
    destruct d; simpl; auto using digits_without_m.
Qed.

Lemma re_search_size (n : Z) : re_search ("size=" ++ format_d n) = None.
Proof. apply re_search_without_m. simpl. apply format_d_without_m. Qed.

Lemma re_search_matrix_path (root : string) (n : Z) (name : string) :
  re_search (get_matrix_path root n name)
  = match re_search root with
    | Some g => Some g
    | None => re_search name
    end.
Proof.
  rewrite PathFacts.get_matrix_path_eq.
  rewrite (re_search_segments root).
  rewrite (re_search_segments name), (re_search_size n).
  destruct (re_search name); reflexivity.
Qed.

(** X9.  On a path built by [get_matrix_path], [infer_momentum_from_path]
    returns what it finds in the root and, if the root has no match, what
    it finds in the mechanism name; the segment [size=<n>] never
    matches. *)
Theorem X9_momentum_is_read_from_root_then_name :
  forall (root : string) (n : Z) (mechanism_name : string),
    infer_momentum_from_path (get_matrix_path root n mechanism_name)
    = match infer_momentum_from_path root with
      | Some momentum => Some momentum
      | None => infer_momentum_from_path mechanism_name
      end.
Proof.
  intros root n name. unfold infer_momentum_from_path.
  rewrite re_search_matrix_path.
  destruct (re_search root) as [[d1 d2]|]; reflexivity.
Qed.

End SearchFacts.

(** ** The momenta [get_momentum_path] accepts *)

Module MomentumMore.

Import Paths Storage Vocabulary MoreVocabulary.
Local Open Scope string_scope.
#[local] Arguments String.append !_ _ / : simpl nomatch.

Lemma digits2_pos_bound (m : positive) :
  Zpos m < 2 ^ Zpos (digits2_pos m).
Proof.
  induction m as [m IH|m IH|]; simpl digits2_pos.
  - rewrite Pos2Z.inj_succ, Z.pow_succ_r, Pos2Z.inj_xI by lia. lia.
  - rewrite Pos2Z.inj_succ, Z.pow_succ_r, Pos2Z.inj_xO by lia. lia.
  - reflexivity.
Qed.

Lemma valid_mantissa_bound (s : bool) (m : positive) (e : Z) :
  valid (S754_finite s m e) -> Zpos m < 2 ^ 53.
Proof.
  unfold valid, valid_binary, bounded, canonical_mantissa, fexp, emin.
  intros H. apply andb_prop in H as [H _]. apply Z.eqb_eq in H.
  assert (Hd : Zpos (digits2_pos m) <= 53)
    by (unfold fexp, emin, Float64.prec, Float64.emax in H; lia).
  eapply Z.lt_le_trans; [apply digits2_pos_bound|].
  apply Z.pow_le_mono_r; lia.
Qed.

Lemma below_two_to_52 (m : positive) :
  match Pos.compare_cont Eq m 4503599627370496 with
  | Gt => false
  | _ => true
  end = true ->
  Zpos m <= 4503599627370496.
Proof.
  intros H. unfold Z.le. simpl. unfold Pos.compare.
  destruct (Pos.compare_cont Eq m 4503599627370496);
    [discriminate | discriminate | discriminate H].
Qed.

Lemma at_most_one (m : positive) (e : Z) :
  Float64.leb (S754_finite false m e) (Float64.of_Z 1) = true ->
  e < -52 \/ (e = -52 /\ Zpos m <= 4503599627370496).
Proof.
  replace (Float64.of_Z 1) with (S754_finite false 4503599627370496 (-52))
    by (vm_compute; reflexivity).
  unfold Float64.leb, SFleb, SFcompare.
  destruct (Z.compare_spec e (-52)) as [He|He|He].
  - intros H. right. split; [exact He | apply below_two_to_52, H].
  - intros _. left. exact He.
  - intros H. discriminate H.
Qed.

Lemma round_half_even_bound (M : Z) (p : positive) :
  0 <= M <= 100 * 2 ^ Zpos p ->
  0 <= Float64.round_half_even M (Zneg p) <= 100.
Proof.
  intros HM. unfold Float64.round_half_even.
  change (Z.pow_pos 2 p) with (2 ^ Zpos p).
  assert (Hd : 0 < 2 ^ Zpos p) by (apply Z.pow_pos_nonneg; lia).
  set (d := 2 ^ Zpos p) in *.
  pose proof (Z.div_mod M d ltac:(lia)) as Hdm.
  pose proof (Z.mod_pos_bound M d Hd) as Hr.
  destruct (Z.compare_spec (2 * (M mod d)) d) as [Hc|Hc|Hc];
    try destruct (Z.even (M / d)); nia.
Qed.

Lemma eqb_finite (x : Float64.t) (s : bool) (m : positive) (e : Z) :
  Float64.eqb x (S754_finite s m e) = true -> x = S754_finite s m e.
Proof.
  unfold Float64.eqb, SFeqb, SFcompare.
  destruct x as [sx|sx| |sx mx ex].
  - destruct s; intros H; discriminate H.
  - destruct sx; intros H; discriminate H.
  - intros H; discriminate H.
  - destruct sx, s; try (intros H; discriminate H);
      destruct (Z.compare_spec ex e) as [He|He|He];
      try (intros H; discriminate H);
      destruct (Pos.compare_cont Eq mx m) eqn:Hc;
      try (intros H; discriminate H);
      intros _; apply Pos.compare_eq in Hc; subst; reflexivity.
Qed.

Lemma hundredths_accepted (k : nat) :
  (k <= 100)%nat -> In (hundredths (Z.of_nat k)) accepted_values.
Proof.
  intros Hk. unfold accepted_values. right.
  apply in_map_iff. exists k. split; [reflexivity|].
  apply in_seq. lia.
Qed.

(** A proper binary64 number that passes both tests is [-0.0] or one of
    the hundredths. *)
Lemma accepted_is_listed (momentum : Float64.t) :
  valid momentum -> accepted momentum = true -> In momentum accepted_values.
Proof.
  intros Hv Ha. unfold accepted in Ha.
  apply andb_prop in Ha as [Ha Heq]. apply andb_prop in Ha as [H0 H1].
  destruct momentum as [s|s| |s m e].
  - destruct s; [left; reflexivity|].
    apply (hundredths_accepted 0). lia.
  - destruct s; discriminate.
  - discriminate.
  - destruct s; [discriminate|].
    pose proof (valid_mantissa_bound false m e Hv) as Hm.
    apply at_most_one in H1.
    assert (He : exists p, e = Zneg p /\ Zpos m <= 2 ^ Zpos p).
    { destruct e as [|p|p]; try lia.
      exists p. split; [reflexivity|].
      destruct H1 as [H1|[H1 H1']].
      - apply Z.lt_le_incl, (Z.lt_le_trans _ _ _ Hm).
        apply Z.pow_le_mono_r; lia.
      - injection H1 as ->.
        replace (2 ^ 52) with 4503599627370496 by (vm_compute; reflexivity).
        exact H1'. }
    destruct He as (p & -> & Hp).
    pose proof (round_half_even_bound (100 * Zpos m) p ltac:(lia)) as Hk.
    unfold Float64.round2 in Heq.
    destruct (Float64.round_half_even (100 * Zpos m) (Zneg p)) as [|k|k].
    + discriminate Heq.
    + apply eqb_finite in Heq. rewrite <- Heq.
      replace (Zpos k) with (Z.of_nat (Z.to_nat (Zpos k))) in Hk |- *
        by (apply Z2Nat.id; lia).
      change (SFdiv Float64.prec Float64.emax (S754_finite false k 0)
                (S754_finite false 100 0))
        with (hundredths (Zpos k)).
      rewrite <- (Z2Nat.id (Zpos k)) by lia.
      apply hundredths_accepted. lia.
    + lia.
Qed.

Lemma listed_is_accepted (momentum : Float64.t) :
  In momentum accepted_values -> accepted momentum = true.
Proof.
  assert (H : forallb accepted accepted_values = true)
    by (vm_compute; reflexivity).
  rewrite forallb_forall in H. apply H.
Qed.

Lemma get_momentum_path_accepted (root : string) (n : Z)
    (momentum : Float64.t) :
  get_momentum_path root n momentum
  = if accepted momentum
    then Ok (get_matrix_path root n (momentum_name momentum))
    else Err InvalidArgument.
Proof.
  unfold get_momentum_path, accepted, momentum_name.
  destruct (Float64.leb (Float64.of_Z 0) momentum
            && Float64.leb momentum (Float64.of_Z 1)); [|reflexivity].
  cbn [negb andb].
  destruct (Float64.eqb (Float64.round2 momentum) momentum); reflexivity.
Qed.

(** X10.  Among the proper binary64 numbers, [get_momentum_path] builds a
    path for exactly 102 of them: the hundredths [k/100] for [k] from 0 to
    100 (read as the nearest binary64 number) and [-0.0]. *)
Theorem X10_momenta_with_a_path :
  forall (root : string) (n : Z) (momentum : Float64.t),
    valid momentum ->
    ((exists path, get_momentum_path root n momentum = Ok path)
     <-> momentum = S754_zero true
         \/ exists k : nat, (k <= 100)%nat
                            /\ momentum = hundredths (Z.of_nat k)).
Proof.
  intros root n m Hv. rewrite get_momentum_path_accepted. split.
  - intros [path E].
    destruct (accepted m) eqn:Ha; [|discriminate].
    destruct (accepted_is_listed m Hv Ha) as [<-|Hin]; [left; reflexivity|].
    right. apply in_map_iff in Hin as (k & <- & Hk).
    apply in_seq in Hk. exists k. split; [lia | reflexivity].
  - intros H.
    assert (Hin : In m accepted_values).
    { destruct H as [->|(k & Hk & ->)]; [left; reflexivity|].
      apply hundredths_accepted, Hk. }
    rewrite (listed_is_accepted m Hin). eexists. reflexivity.
Qed.

(** The digits of the name of a hundredth below 1.0 give it back. *)
Lemma names_below_one_read_back :
  forallb (fun k =>
             match infer_momentum_from_path
                     (momentum_name (hundredths (Z.of_nat k))) with
             | Some m => same_float m (hundredths (Z.of_nat k))
             | None => false
             end) (seq 0 100) = true.
Proof. vm_compute. reflexivity. Qed.

Lemma infer_none_search (s : string) :
  infer_momentum_from_path s = None -> re_search s = None.
Proof.
  unfold infer_momentum_from_path.
  destruct (re_search s) as [[d1 d2]|]; [discriminate | reflexivity].
Qed.

Lemma infer_matrix_path_clean_root (root : string) (n : Z) (name : string) :
  infer_momentum_from_path root = None ->
  infer_momentum_from_path (get_matrix_path root n name)
  = infer_momentum_from_path name.
Proof.
  intros H. apply infer_none_search in H.
  unfold infer_momentum_from_path.
  rewrite SearchFacts.re_search_matrix_path, H. reflexivity.
Qed.

(** X11.  Under a root in which the pattern does not occur, every proper
    binary64 momentum for which a path is built, other than 1.0 and
    [-0.0], is read back from that path exactly. *)
Theorem X11_momentum_round_trip :
  forall (root : string) (n : Z) (momentum : Float64.t) (path : string),
    valid momentum ->
    infer_momentum_from_path root = None ->
    get_momentum_path root n momentum = Ok path ->
    momentum <> Float64.of_Z 1 ->
    momentum <> S754_zero true ->
    infer_momentum_from_path path = Some momentum.
Proof.
  intros root n m path Hv Hroot E H1 H0.
  rewrite get_momentum_path_accepted in E.
  destruct (accepted m) eqn:Ha; [|discriminate].
  injection E as <-.
  rewrite (infer_matrix_path_clean_root root n _ Hroot).
  destruct (accepted_is_listed m Hv Ha) as [<-|Hin]; [contradiction|].
  apply in_map_iff in Hin as (k & <- & Hk). apply in_seq in Hk.
  assert (Hk' : (k < 100)%nat).
  { destruct (Nat.eq_dec k 100%nat) as [->|]; [|lia].
    exfalso. apply H1. vm_compute. reflexivity. }
  pose proof names_below_one_read_back as Hall.
  rewrite forallb_forall in Hall.
  specialize (Hall k ltac:(apply in_seq; lia)).
  destruct (infer_momentum_from_path (momentum_name _)) as [x|];
    [|discriminate Hall].
  f_equal. apply MomentumFacts.same_float_eq, Hall.
Qed.

Lemma prefix_sum_path_ok (root : string) (n : Z) (method path : string) :
  prefix_sum_path root n method = Ok path ->
  exists name,
    In name [PREFIX_OPT; PREFIX_ONLINE_HONAKER; PREFIX_FULL_HONAKER]
    /\ path = get_matrix_path root n name.
Proof.
  unfold prefix_sum_path.
  destruct (_ || _); [intros [= <-]; eexists; split; [|reflexivity];
                      simpl; auto|].
  destruct (_ || _); [intros [= <-]; eexists; split; [|reflexivity];
                      simpl; auto|].
  destruct (_ || _); [intros [= <-]; eexists; split; [|reflexivity];
                      simpl; auto|].
  discriminate.
Qed.

(** X12.  Under a root in which the pattern does not occur, no momentum is
    read from the path of a prefix-sum method. *)
Theorem X12_no_momentum_in_prefix_sum_paths :
  forall (root : string) (n : Z) (aggregator_method path : string),
    infer_momentum_from_path root = None ->
    prefix_sum_path root n aggregator_method = Ok path ->
    infer_momentum_from_path path = None.
Proof.
  intros root n method path Hroot Hp.
  apply prefix_sum_path_ok in Hp as (name & Hin & ->).
  rewrite (infer_matrix_path_clean_root root n _ Hroot).
  simpl in Hin.
  destruct Hin as [<-|[<-|[<-|[]]]]; vm_compute; reflexivity.
Qed.

Lemma names_are_distinct :
  forallb (fun a =>
             forallb (fun b =>
                        implb (String.eqb (momentum_name a) (momentum_name b))
                              (same_float a b))
                     accepted_values)
          accepted_values = true.
Proof. vm_compute. reflexivity. Qed.

(** X13.  Two momentum paths under the same root coincide only for the
    same [n] and the same momentum (bit for bit). *)
Theorem X13_momentum_paths_are_distinct :
  forall (root : string) (n1 n2 : Z) (momentum1 momentum2 : Float64.t)
         (path : string),
    valid momentum1 -> valid momentum2 ->
    get_momentum_path root n1 momentum1 = Ok path ->
    get_momentum_path root n2 momentum2 = Ok path ->
    n1 = n2 /\ momentum1 = momentum2.
Proof.
  intros root n1 n2 m1 m2 path Hv1 Hv2 E1 E2.
  rewrite get_momentum_path_accepted in E1, E2.
  destruct (accepted m1) eqn:Ha1; [|discriminate].
  destruct (accepted m2) eqn:Ha2; [|discriminate].
  injection E1 as <-. injection E2 as E2.
  apply PathFacts.get_matrix_path_inj in E2 as [-> Hname].
  split; [reflexivity|].
  pose proof names_are_distinct as Hall.
  rewrite forallb_forall in Hall.
  specialize (Hall m1 (accepted_is_listed m1 Hv1 Ha1)).
  rewrite forallb_forall in Hall.
  specialize (Hall m2 (accepted_is_listed m2 Hv2 Ha2)).
  rewrite Hname, String.eqb_refl in Hall.
  apply MomentumFacts.same_float_eq, Hall.
Qed.

(** X14.  A momentum path is never the path of a prefix-sum method under
    the same root. *)
Theorem X14_momentum_path_is_no_prefix_sum_path :
  forall (root : string) (n n' : Z) (momentum : Float64.t)
         (aggregator_method path : string),
    get_momentum_path root n momentum = Ok path ->
    prefix_sum_path root n' aggregator_method <> Ok path.
Proof.
  intros root n n' m method path E Hp.
  rewrite get_momentum_path_accepted in E.
  destruct (accepted m); [|discriminate].
  injection E as <-.
  apply prefix_sum_path_ok in Hp as (name & Hin & Hp).
  apply PathFacts.get_matrix_path_inj in Hp as [_ Hname].
  unfold momentum_name in Hname. simpl in Hin.
  destruct Hin as [<-|[<-|[<-|[]]]]; discriminate Hname.
Qed.

End MomentumMore.

(** ** More on the scaler and the check *)

Module NumericMore.

Import Vocabulary MoreVocabulary.

Section Generic.

Context {num : Type} {A : Arith num}.


Lemma forallb2_refl {X} (p : X -> X -> bool) (l : list X) :
  (forall x, p x x = true) -> forallb2 p l l = true.
Proof.
  intros Hp. induction l as [|x l IH]; simpl; [reflexivity|].
  rewrite Hp, IH. reflexivity.
Qed.

Lemma allclose_refl (m : matrix num) :
  (forall x : num, isclose x x = true) -> allclose m m = true.
Proof.
  intros Hx. unfold allclose, same_shape.
  rewrite !Nat.eqb_refl. simpl.
  apply forallb2_refl. intros row. apply forallb2_refl, Hx.
Qed.

End Generic.

(** *** binary64 *)

Lemma shr_1_nonneg (mrs : shr_record) :
  0 <= shr_m mrs -> 0 <= shr_m (shr_1 mrs).
Proof.
  destruct mrs as [m r s]. simpl.
  destruct m as [|[p|p|]|[p|p|]]; simpl; lia.
Qed.

Lemma iter_pos_keeps {X} (P : X -> Prop) (f : X -> X) :
  (forall x, P x -> P (f x)) ->
  forall (p : positive) (x : X), P x -> P (SpecFloat.iter_pos f p x).
Proof.
  intros Hf. induction p as [p IH|p IH|]; intros x Hx; simpl; auto.
Qed.

Lemma shr_fexp_nonneg (m e : Z) (l : location) :
  0 <= m -> 0 <= shr_m (fst (shr_fexp Float64.prec Float64.emax m e l)).
Proof.
  intros Hm. unfold shr_fexp, shr.
  assert (H0 : 0 <= shr_m (shr_record_of_loc m l))
    by (destruct l as [|[]]; exact Hm).
  destruct (fexp Float64.prec Float64.emax (Zdigits2 m + e) - e) as [|p|p];
    simpl; try exact H0.
  apply (iter_pos_keeps (fun mrs => 0 <= shr_m mrs)); [|exact H0].
  apply shr_1_nonneg.
Qed.

Lemma round_nearest_even_nonneg (m : Z) (l : location) :
  0 <= m -> 0 <= round_nearest_even m l.
Proof.
  intros Hm. destruct l as [|[]]; simpl; try exact Hm; try lia.
  destruct (Z.even m); lia.
Qed.

(** Rounding a mantissa that is not negative gives no NaN and no sign. *)
Lemma binary_round_aux_nonnegative (m e : Z) (l : location) :
  0 <= m ->
  nonnegative (binary_round_aux Float64.prec Float64.emax false m e l).
Proof.
  intros Hm. unfold binary_round_aux.
  pose proof (shr_fexp_nonneg m e l Hm) as H1.
  destruct (shr_fexp Float64.prec Float64.emax m e l) as [mrs' e'].
  simpl in H1.
  pose proof (shr_fexp_nonneg
                (round_nearest_even (shr_m mrs') (loc_of_shr_record mrs'))
                e' loc_Exact
                (round_nearest_even_nonneg _ _ H1)) as H2.
  destruct (shr_fexp Float64.prec Float64.emax _ e' loc_Exact)
    as [mrs'' e''].
  simpl in H2.
  destruct (shr_m mrs'') as [|p|p]; simpl; try exact I; try lia.
  destruct (e'' <=? Float64.emax - Float64.prec); exact I.
Qed.

Lemma binary_normalize_nonnegative (z e : Z) :
  0 < z ->
  nonnegative (binary_normalize Float64.prec Float64.emax z e false).
Proof.
  intros Hz. destruct z as [|p|p]; try lia.
  unfold binary_normalize, binary_round.
  destruct (shl_align p e _) as [mz ez].
  apply binary_round_aux_nonnegative. lia.
Qed.

Lemma atol_value :
  atol (A := binary64) = S754_finite false 6044629098073146 (-79).
Proof. vm_compute. reflexivity. Qed.

Lemma rtol_value :
  rtol (A := binary64) = S754_finite false 4722366482869645 (-72).
Proof. vm_compute. reflexivity. Qed.

(** The tolerance allowed around a finite entry is not negative. *)
Lemma tolerance_nonnegative (s : bool) (m : positive) (e : Z) :
  nonnegative
    (Float64.add atol (Float64.mul rtol (Float64.abs (S754_finite s m e)))).
Proof.
  rewrite atol_value, rtol_value.
  unfold Float64.abs, SFabs, Float64.mul, SFmul. cbn [xorb].
  pose proof (binary_round_aux_nonnegative
                (Zpos (4722366482869645 * m)) (-72 + e) loc_Exact
                ltac:(lia)) as Hmul.
  destruct (binary_round_aux Float64.prec Float64.emax false
              (Zpos (4722366482869645 * m)) (-72 + e) loc_Exact)
    as [[|]|[|]| |[|] mx ex]; try contradiction; try exact I.
  unfold Float64.add, SFadd.
  apply binary_normalize_nonnegative. unfold cond_Zopp. lia.
Qed.

Lemma zero_at_most_nonnegative (x : Float64.t) :
  nonnegative x -> Float64.leb (S754_zero false) x = true.
Proof. destruct x as [[|]|[|]| |[|] m e]; simpl; try contradiction; reflexivity. Qed.

Lemma sub_self (s : bool) (m : positive) (e : Z) :
  Float64.sub (S754_finite s m e) (S754_finite s m e) = S754_zero false.
Proof.
  unfold Float64.sub, SFsub. rewrite Z.sub_diag. reflexivity.
Qed.

(** Every binary64 value passes the test against itself. *)
Lemma isclose_refl (x : Float64.t) : isclose x x = true.
Proof.
  unfold isclose.
  destruct x as [[|]|[|]| |s m e];
    [vm_compute; reflexivity | vm_compute; reflexivity
    | vm_compute; reflexivity | vm_compute; reflexivity
    | vm_compute; reflexivity |].
  change (Float64.leb
            (Float64.abs (Float64.sub (S754_finite s m e) (S754_finite s m e)))
            (Float64.add atol
               (Float64.mul rtol (Float64.abs (S754_finite s m e))))
          = true).
  rewrite sub_self.
  apply zero_at_most_nonnegative, tolerance_nonnegative.
Qed.

(** X16.  On binary64, the product [W @ H] itself always passes
    [verify_reconstruction], whatever [W] and [H] hold (NaN, infinities,
    overflow in the product), as long as both are float64 and their inner
    sizes agree. *)
Theorem X16_the_product_itself_passes :
  forall (w_matrix h_matrix : matrix Float64.t),
    m_dtype w_matrix = float64 ->
    m_dtype h_matrix = float64 ->
    length (m_rows h_matrix) = m_ncols w_matrix ->
    verify_reconstruction w_matrix h_matrix (product w_matrix h_matrix)
    = Ok tt.
Proof.
  intros w h Hw Hh Hin. unfold verify_reconstruction.
  rewrite Hw, Hh, (VerifyFacts.matmul_product w h Hin).
  change (negb (bool_decide (float64 = float64))) with false.
  cbv beta iota delta [rbind].
  rewrite (allclose_refl _ isclose_refl). reflexivity.
Qed.

Lemma add_nan_r (x : Float64.t) : Float64.add x S754_nan = S754_nan.
Proof. destruct x as [[|]|[|]| |[|] m e]; reflexivity. Qed.

Lemma fold_add_from_nan (xs : list Float64.t) :
  fold_left Float64.add xs S754_nan = S754_nan.
Proof. induction xs as [|y xs IH]; simpl; [reflexivity | exact IH]. Qed.

Lemma fold_add_with_nan (xs : list Float64.t) (x : Float64.t) :
  In S754_nan xs -> fold_left Float64.add xs x = S754_nan.
Proof.
  revert x. induction xs as [|y xs IH]; intros x; simpl; [intros []|].
  intros [->|Hin].
  - rewrite add_nan_r. apply fold_add_from_nan.
  - apply IH, Hin.
Qed.

Lemma add_reduce_with_nan (l : list Float64.t) :
  In S754_nan l -> add_reduce (A := binary64) l = S754_nan.
Proof.
  destruct l as [|x xs]; simpl; [intros []|].
  intros [->|Hin]; [apply fold_add_from_nan | apply fold_add_with_nan, Hin].
Qed.

Lemma maximum_nan_r (x : Float64.t) : Float64.maximum x S754_nan = S754_nan.
Proof. destruct x as [[|]|[|]| |[|] m e]; reflexivity. Qed.

Lemma fold_max_from_nan (xs : list Float64.t) :
  fold_left Float64.maximum xs S754_nan = S754_nan.
Proof. induction xs as [|y xs IH]; simpl; [reflexivity | exact IH]. Qed.

Lemma fold_max_with_nan (xs : list Float64.t) (x : Float64.t) :
  In S754_nan xs -> fold_left Float64.maximum xs x = S754_nan.
Proof.
  revert x. induction xs as [|y xs IH]; intros x; simpl; [intros []|].
  intros [->|Hin].
  - rewrite maximum_nan_r. apply fold_max_from_nan.
  - apply IH, Hin.
Qed.

Lemma np_max_with_nan (l : list Float64.t) :
  In S754_nan l -> np_max (A := binary64) l = Ok S754_nan.
Proof.
  destruct l as [|x xs]; simpl; [intros []|].
  intros [->|Hin]; f_equal;
    [apply fold_max_from_nan | apply fold_max_with_nan, Hin].
Qed.

Lemma column_norm_with_nan (h : matrix Float64.t) (row : list Float64.t)
    (j : nat) :
  In row (m_rows h) -> nth_error row j = Some S754_nan ->
  column_norm j h = S754_nan.
Proof.
  intros Hrow Hj.
  change (Float64.sqrt
            (add_reduce
               (map (fun x => Float64.mul x x)
                    (map (fun r => nth j r pzero) (m_rows h)))) = S754_nan).
  rewrite add_reduce_with_nan; [reflexivity|].
  apply in_map_iff. exists S754_nan. split; [reflexivity|].
  apply in_map_iff. exists row. split; [|exact Hrow].
  apply nth_error_nth, Hj.
Qed.

Lemma all_nan_rows (f : Float64.t -> Float64.t) (rows : list (list Float64.t)) :
  (forall x, f x = S754_nan) ->
  map (map f) rows = map (map (fun _ => S754_nan)) rows.
Proof.
  intros Hf. apply map_ext. intros row. apply map_ext. exact Hf.
Qed.

(** X17.  On binary64 a single NaN in a column of [H] that counts (its
    index is below the number of columns) makes the maximal column norm
    NaN, and with it every entry of both matrices the scaler returns. *)
Theorem X17_one_nan_spoils_everything :
  forall (w_matrix h_matrix : matrix Float64.t) (row : list Float64.t)
         (j : nat),
    In row (m_rows h_matrix) ->
    nth_error row j = Some S754_nan ->
    (j < m_ncols h_matrix)%nat ->
    max_col_norm h_matrix = Ok S754_nan
    /\ scale_w_h_by_single_participation_sensitivity w_matrix h_matrix
       = Ok (map_matrix (fun _ => S754_nan) w_matrix,
             map_matrix (fun _ => S754_nan) h_matrix).
Proof.
  intros w h row j Hrow Hj Hlt.
  assert (Hmax : max_col_norm h = Ok S754_nan).
  { unfold max_col_norm, column_norms. apply np_max_with_nan.
    apply in_map_iff. exists j. split.
    - apply (column_norm_with_nan h row j Hrow Hj).
    - apply in_seq. lia. }
  split; [exact Hmax|].
  unfold scale_w_h_by_single_participation_sensitivity.
  rewrite Hmax. cbn [rbind]. unfold map_matrix. simpl f_mul. simpl f_div.
  rewrite (all_nan_rows (fun w => Float64.mul w S754_nan))
    by (intros [[|]|[|]| |[|] m e]; reflexivity).
  rewrite (all_nan_rows (fun x => Float64.div x S754_nan))
    by (intros [[|]|[|]| |[|] m e]; reflexivity).
  reflexivity.
Qed.

End NumericMore.

(** ** What the extraction can return *)

Module SearchMore.

Import Paths Vocabulary MoreVocabulary.

Lemma match_here_digits (s : string) (d1 d2 : ascii) :
  match_here s = Some (d1, d2) -> is_digit d1 = true /\ is_digit d2 = true.
Proof.
  unfold match_here.
  destruct (strip_prefix "momentum_0p" s) as [[|a [|b r]]|];
    try (intros H; discriminate H).
  destruct (is_digit a && is_digit b) eqn:E; [|intros H; discriminate H].
  intros [= <- <-]. apply andb_prop, E.
Qed.

Lemma re_search_digits (s : string) (d1 d2 : ascii) :
  re_search s = Some (d1, d2) -> is_digit d1 = true /\ is_digit d2 = true.
Proof.
  induction s as [|c s IH]; rewrite SearchFacts.re_search_unfold.
  - destruct (match_here "") as [g|] eqn:E; [|intros H; discriminate H].
    intros [= ->]. apply (match_here_digits _ _ _ E).
  - destruct (match_here (String c s)) as [g|] eqn:E; [|exact IH].
    intros [= ->]. apply (match_here_digits _ _ _ E).
Qed.

Lemma digit_value_range (c : ascii) :
  is_digit c = true -> 0 <= digit_value c <= 9.
Proof.
  unfold is_digit, digit_value. intros H.
  apply andb_prop in H as [H1 H2].
  apply Nat.leb_le in H1, H2. lia.
Qed.

Lemma quotients_are_hundredths :
  forallb (fun k => same_float
                      (Float64.div (Float64.of_Z (Z.of_nat k))
                                   (Float64.of_Z 100))
                      (hundredths (Z.of_nat k)))
          (seq 0 100) = true.
Proof. vm_compute. reflexivity. Qed.

(** X20.  Whatever the path, [infer_momentum_from_path] returns nothing or
    one of the hundredths from 0.00 to 0.99: it never returns 1.0, a
    negative number, NaN or a value with more than two decimals. *)
Theorem X20_extracted_momentum_is_a_hundredth_below_one :
  forall (path : string) (momentum : Float64.t),
    infer_momentum_from_path path = Some momentum ->
    exists k : nat, (k < 100)%nat /\ momentum = hundredths (Z.of_nat k).
Proof.
  intros path m. unfold infer_momentum_from_path.
  destruct (re_search path) as [[d1 d2]|] eqn:E; [|intros H; discriminate H].
  intros [= <-].
  destruct (re_search_digits path d1 d2 E) as [H1 H2].
  apply digit_value_range in H1, H2.
  set (v := 10 * digit_value d1 + digit_value d2) in *.
  assert (Hv : 0 <= v < 100) by (unfold v; lia).
  exists (Z.to_nat v). split; [lia|].
  pose proof quotients_are_hundredths as Hall.
  rewrite forallb_forall in Hall.
  specialize (Hall (Z.to_nat v) ltac:(apply in_seq; lia)).
  rewrite Z2Nat.id in Hall |- * by lia.
  apply MomentumFacts.same_float_eq, Hall.
Qed.

End SearchMore.

(** ** The loader and the pipeline, once more *)

Module PipelineMore.

Import Paths Storage Vocabulary MoreVocabulary.

Section Loader.

Context {num : Type}.

Lemma parse_matrix_ok (b : blob num) (m : matrix num) :
  parse_matrix b = Ok m -> b = MatrixBlob m /\ m_dtype m = float64.
Proof.
  destruct b as [m'|v]; simpl; [|intros H; discriminate H].
  destruct (decide (m_dtype m' = float64)) as [Hd|Hd].
  - rewrite (bool_decide_eq_true_2 _ Hd). intros [= <-]. auto.
  - rewrite (bool_decide_eq_false_2 _ Hd). intros H; discriminate H.
Qed.

Lemma parse_vector_ok (b : blob num) (v : vector num) :
  parse_vector b = Ok v -> b = VectorBlob v /\ v_dtype v = float64.
Proof.
  destruct b as [m|v']; simpl; [intros H; discriminate H|].
  destruct (decide (v_dtype v' = float64)) as [Hd|Hd].
  - rewrite (bool_decide_eq_true_2 _ Hd). intros [= <-]. auto.
  - rewrite (bool_decide_eq_false_2 _ Hd). intros H; discriminate H.
Qed.

Lemma read_file_ok (path : string) (st : store num) (b : blob num) :
  read_file path st = Ok b -> blobs st !! path = Some b.
Proof.
  unfold read_file. destruct (blobs st !! path) as [b'|];
    [intros [= <-]; reflexivity | intros H; discriminate H].
Qed.

(** X21.  What [load_w_h_and_maybe_lr] returns is what the store holds:
    the directory exists, [W] and [H] are the float64 matrices stored
    under their two names, and the learning rates are the float64 vector
    stored under the third name, or absent when the store has no blob
    there. *)
Theorem X21_loaded_artifact_is_the_stored_one :
  forall (path : string) (st : store num) (w h : matrix num)
         (lr : option (vector num)),
    load_w_h_and_maybe_lr path st = Ok (w, h, lr) ->
    path ∈ dirs st
    /\ blobs st !! _join_path [path; W_MATRIX_STRING] = Some (MatrixBlob w)
    /\ m_dtype w = float64
    /\ blobs st !! _join_path [path; H_MATRIX_STRING] = Some (MatrixBlob h)
    /\ m_dtype h = float64
    /\ match lr with
       | Some v =>
           blobs st !! _join_path [path; LR_VECTOR_STRING]
             = Some (VectorBlob v)
           /\ v_dtype v = float64
       | None => blobs st !! _join_path [path; LR_VECTOR_STRING] = None
       end.
Proof.
  intros path st w h lr. unfold load_w_h_and_maybe_lr, rbind.
  destruct (exists_ path st && isdir path st) eqn:Hdir;
    [|intros H; discriminate H].
  apply andb_prop in Hdir as [_ Hdir]. apply bool_decide_eq_true_1 in Hdir.
  cbn [negb].
  destruct (read_file (_join_path [path; W_MATRIX_STRING]) st) as [bw|] eqn:Rw;
    [|intros H; discriminate H].
  destruct (parse_matrix bw) as [w'|] eqn:Pw; [|intros H; discriminate H].
  destruct (read_file (_join_path [path; H_MATRIX_STRING]) st) as [bh|] eqn:Rh;
    [|intros H; discriminate H].
  destruct (parse_matrix bh) as [h'|] eqn:Ph; [|intros H; discriminate H].
  apply read_file_ok in Rw, Rh.
  apply parse_matrix_ok in Pw as [-> Hwd], Ph as [-> Hhd].
  destruct (exists_ (_join_path [path; LR_VECTOR_STRING]) st) eqn:Hex.
  - destruct (read_file (_join_path [path; LR_VECTOR_STRING]) st)
      as [bl|] eqn:Rl; [|intros H; discriminate H].
    destruct (parse_vector bl) as [v|] eqn:Pl; [|intros H; discriminate H].
    apply read_file_ok in Rl. apply parse_vector_ok in Pl as [-> Hvd].
    intros [= <- <- <-]. auto 10.
  - intros [= <- <- <-].
    apply StorageFacts.blob_of_not_exists in Hex. auto 10.
Qed.

End Loader.

Section Pipeline.

Context {num : Type} {A : Arith num}.

(** X23.  Running a successful [verify_and_write] a second time with the
    same arguments leaves the blobs and the directories as the first run
    left them. *)
Theorem X23_writing_again_changes_nothing :
  forall (w_matrix h_matrix s_matrix : matrix num) (output_dir : string)
         (lr_sched : option (vector num)) (st : store num),
    fst (verify_and_write w_matrix h_matrix s_matrix output_dir lr_sched st)
      = Ok tt ->
    let once := snd (verify_and_write w_matrix h_matrix s_matrix output_dir
                       lr_sched st) in
    let twice := snd (verify_and_write w_matrix h_matrix s_matrix output_dir
                        lr_sched once) in
    blobs twice = blobs once /\ dirs twice = dirs once.
Proof.
  intros w h s dir lr st Hok once twice. subst once twice.
  revert Hok. unfold verify_and_write, io_bind, io_lift.
  destruct (verify_reconstruction w h s) as [[]|e]; cbn [fst snd];
    [|intros H; discriminate H].
  destruct lr as [v|]; cbn.
  - destruct (length (v_data v) =? m_ncols h)%nat; cbn;
      [|intros H; discriminate H].
    intros _. split.
    + apply map_eq. intros k.
      rewrite !lookup_insert.
      repeat case_decide; reflexivity.
    + apply set_eq. intros x. rewrite !elem_of_union. tauto.
  - intros _. split.
    + apply map_eq. intros k.
      rewrite !lookup_insert.
      repeat case_decide; reflexivity.
    + apply set_eq. intros x. rewrite !elem_of_union. tauto.
Qed.

End Pipeline.

End PipelineMore.

(** ** More runs *)

Module MoreRuns.

Import Paths Storage Vocabulary Samples MoreVocabulary MoreSamples.

Lemma X1_plain_artifact_witness :
  load_w_h_and_maybe_lr out_dir
    (snd (verify_and_write Wr Hr Sr out_dir None empty_store))
  = Ok (Wr, Hr, None).
Proof.
  apply (StorageMore.X1_write_then_load_without_rates
           Wr Hr Sr out_dir empty_store).
  - vm_compute. reflexivity.
  - vm_compute. reflexivity.
Defined.

Lemma X2_artifact_with_rates_witness :
  load_w_h_and_maybe_lr out_dir store_with_lr = Ok (Wr, Hr, Some lr_two).
Proof.
  apply (StorageMore.X2_write_then_load_with_rates
           Wr Hr Sr out_dir lr_two empty_store).
  - vm_compute. reflexivity.
  - reflexivity.
  - reflexivity.
Defined.

Lemma X3_float32_rates_witness :
  fst (verify_and_write Wr Hr Sr out_dir (Some lr_float32) empty_store) = Ok tt
  /\ load_w_h_and_maybe_lr out_dir
       (snd (verify_and_write Wr Hr Sr out_dir (Some lr_float32) empty_store))
     = Err ParseFailure.
Proof.
  apply (StorageMore.X3_rates_of_another_dtype_are_written_and_refused
           Wr Hr Sr out_dir lr_float32 empty_store).
  - vm_compute. reflexivity.
  - reflexivity.
  - discriminate.
Defined.

Lemma X5_old_rates_witness :
  load_w_h_and_maybe_lr out_dir
    (snd (verify_and_write Wr Hr Sr out_dir None store_with_lr))
  = Ok (Wr, Hr, Some lr_two).
Proof.
  apply (StorageMore.X5_old_rates_survive_a_write_without_rates
           Wr Hr Sr out_dir lr_two store_with_lr).
  - vm_compute. reflexivity.
  - vm_compute. reflexivity.
  - reflexivity.
Defined.

Lemma X6_three_writes_witness :
  written store_with_lr
  = ["/tmp/matrix_factorizations/prefix_opt/size=4/w_matrix_tensor_pb";
     "/tmp/matrix_factorizations/prefix_opt/size=4/h_matrix_tensor_pb";
     "/tmp/matrix_factorizations/prefix_opt/size=4/lr_vector_tensor_pb"]%string.
Proof.
  unfold store_with_lr.
  rewrite (StorageMore.X6_order_of_writes
             Wr Hr Sr out_dir (Some lr_two) empty_store).
  - reflexivity.
  - vm_compute. reflexivity.
Defined.

Lemma X8_prefix_sum_witness :
  get_prefix_sum_w_h _FACTORIZATION_ROOT 4 "opt_prefix_sum_matrix"
    (snd (verify_and_write Wr Hr Sr out_dir None empty_store))
  = Ok (Wr, Hr).
Proof.
  apply (StorageMore.X8_prefix_sum_returns_what_was_written
           _FACTORIZATION_ROOT 4 "opt_prefix_sum_matrix" out_dir
           Wr Hr Sr empty_store).
  - reflexivity.
  - vm_compute. reflexivity.
  - vm_compute. reflexivity.
Defined.

Lemma X10_momentum_037_witness :
  exists path, get_momentum_path _FACTORIZATION_ROOT 10 (hundredths 37) = Ok path.
Proof.
  apply (MomentumMore.X10_momenta_with_a_path
           _FACTORIZATION_ROOT 10 (hundredths 37)).
  - vm_compute. reflexivity.
  - right. exists 37%nat. split; [lia | reflexivity].
Defined.

Lemma X11_momentum_037_witness :
  infer_momentum_from_path path_037 = Some (hundredths 37).
Proof.
  apply (MomentumMore.X11_momentum_round_trip
           _FACTORIZATION_ROOT 10 (hundredths 37) path_037).
  - vm_compute. reflexivity.
  - vm_compute. reflexivity.
  - vm_compute. reflexivity.
  - intros E. vm_compute in E. discriminate E.
  - intros E. vm_compute in E. discriminate E.
Defined.

Lemma X12_prefix_opt_witness : infer_momentum_from_path out_dir = None.
Proof.
  apply (MomentumMore.X12_no_momentum_in_prefix_sum_paths
           _FACTORIZATION_ROOT 4 "prefix_opt" out_dir).
  - vm_compute. reflexivity.
  - reflexivity.
Defined.

Lemma X13_same_path_witness :
  10 = 10 /\ hundredths 37 = hundredths 37.
Proof.
  apply (MomentumMore.X13_momentum_paths_are_distinct
           _FACTORIZATION_ROOT 10 10 (hundredths 37) (hundredths 37) path_037).
  - vm_compute. reflexivity.
  - vm_compute. reflexivity.
  - vm_compute. reflexivity.
  - vm_compute. reflexivity.
Defined.

Lemma X14_momentum_037_witness :
  prefix_sum_path _FACTORIZATION_ROOT 10 "prefix_opt" <> Ok path_037.
Proof.
  apply (MomentumMore.X14_momentum_path_is_no_prefix_sum_path
           _FACTORIZATION_ROOT 10 10 (hundredths 37) "prefix_opt" path_037).
  vm_compute. reflexivity.
Defined.


Lemma X16_product_witness :
  verify_reconstruction Wr Hr (product Wr Hr) = Ok tt.
Proof.
  apply (NumericMore.X16_the_product_itself_passes Wr Hr); reflexivity.
Defined.

Lemma X17_nan_witness :
  scale_w_h_by_single_participation_sensitivity W1 H_nan
  = Ok (Matrix float64 2 [[S754_nan; S754_nan]],
        Matrix float64 1 [[S754_nan]; [S754_nan]]).
Proof.
  apply (NumericMore.X17_one_nan_spoils_everything
           W1 H_nan [S754_nan] 0).
  - right. left. reflexivity.
  - reflexivity.
  - simpl. lia.
Defined.

Lemma X20_extracted_037_witness :
  exists k : nat, (k < 100)%nat /\ hundredths 37 = hundredths (Z.of_nat k).
Proof.
  apply (SearchMore.X20_extracted_momentum_is_a_hundredth_below_one path_037).
  vm_compute. reflexivity.
Defined.

Lemma X21_loaded_rates_witness :
  blobs store_with_lr !! _join_path [out_dir; LR_VECTOR_STRING]
  = Some (VectorBlob lr_two).
Proof.
  destruct (PipelineMore.X21_loaded_artifact_is_the_stored_one
              out_dir store_with_lr Wr Hr (Some lr_two))
    as (_ & _ & _ & _ & _ & Hlr & _).
  - vm_compute. reflexivity.
  - exact Hlr.
Defined.

Lemma X23_second_write_witness :
  blobs (snd (verify_and_write Wr Hr Sr out_dir (Some lr_two) store_with_lr))
  = blobs store_with_lr.
Proof.
  apply (PipelineMore.X23_writing_again_changes_nothing
           Wr Hr Sr out_dir (Some lr_two) empty_store).
  vm_compute. reflexivity.
Defined.

End MoreRuns.
